(** * coinbase-api-client: the authenticated request pipeline

    A shallow embedding of [src/coinbase-api-client.js]: header
    construction for the two authentication modes, the request dispatcher
    with its single refresh-and-retry, the token refresh with its
    [didRefreshToken] hook, and the endpoint wrappers that merge into the
    caller's parameter object.

    JavaScript values are trees; the objects whose identity matters (the
    request [params] built by [getRequestParams] and mutated by the retry,
    and the parameter objects callers hand to [sendMoney] and friends) live
    in a store addressed by location.  Asynchronous functions are state
    passing functions: a promise that resolves is [Return], one that rejects
    is [Throw], and an exception raised inside the transport's callback,
    which leaves the promise pending for ever, is [Uncaught].  Requests of
    one client are taken one at a time. *)

From Stdlib Require Import ZArith String Ascii List Bool Lia.
From stdpp Require Import base list strings pretty.

Set Warnings "-register-all".
Open Scope Z_scope.

(** ** JavaScript values *)

(** Numbers come in two kinds.  [VNum n] is the integer [n], for the
    integers that JavaScript holds exactly and prints digit by digit:
    those of magnitude at most 2^53 - 1 (status codes, timestamps, counts).
    [VReal text] is any other number, named by the text that [String(x)]
    gives it: "0.1", "1e+21", "9007199254740992", "NaN", "Infinity".
    Strings are UTF-8 text.  [well_formed], below, says which trees stand
    for a JavaScript value. *)
Inductive value :=
| VUndef
| VNull
| VBool (b : bool)
| VNum (n : Z)
| VStr (s : string)
| VObj (fields : list (string * value))
| VArr (items : list value)
| VReal (text : string).

(** A plain object: its own enumerable string keyed properties, in
    enumeration order: keys that are array indices first, in ascending
    order, then the other keys as they were added. *)
Definition object := list (string * value).

(** The three numbers that are not finite. *)
Definition non_finite (text : string) : bool :=
  String.eqb text "NaN" || String.eqb text "Infinity" || String.eqb text "-Infinity".

(** [if (v)], [v ? a : b], [!v]. *)
Definition truthy (v : value) : bool :=
  match v with
  | VUndef | VNull => false
  | VBool b => b
  | VNum n => negb (n =? 0)
  | VStr s => negb (String.eqb s "")
  | VObj _ | VArr _ => true
  | VReal text => negb (String.eqb text "NaN")
  end.

(** [v == null]. *)
Definition nullish (v : value) : bool :=
  match v with
  | VUndef | VNull => true
  | _ => false
  end.

(** [o[k]] on the own properties of a plain object. *)
Fixpoint field (k : string) (o : object) : option value :=
  match o with
  | [] => None
  | (k', v) :: rest => if String.eqb k k' then Some v else field k rest
  end.

(** [o[k] = v]: an existing property keeps its place, a new one goes last. *)
Fixpoint set_field (k : string) (v : value) (o : object) : object :=
  match o with
  | [] => [(k, v)]
  | (k', v') :: rest =>
      if String.eqb k k' then (k, v) :: rest else (k', v') :: set_field k v rest
  end.

(** [v.k] for the property names the client reads from decoded bodies
    ([data], [access_token], [refresh_token]): [None] is the TypeError of a
    read on [undefined] or [null]; arrays, strings, numbers and booleans
    have no such property. *)
Definition getProp (v : value) (k : string) : option value :=
  match v with
  | VUndef | VNull => None
  | VObj o => Some (default VUndef (field k o))
  | _ => Some VUndef
  end.

(** The code points of a UTF-8 text: a byte that continues a sequence
    (10xxxxxx) joins the code point before it, any other byte starts one. *)
Definition continues (c : ascii) : bool :=
  let n := nat_of_ascii c in Nat.leb 128 n && Nat.ltb n 192.

Fixpoint code_points_from (current : string) (s : string) : list string :=
  match s with
  | EmptyString => match current with EmptyString => [] | _ => [current] end
  | String c rest =>
      if continues c then code_points_from (current +:+ String c EmptyString) rest
      else match current with
           | EmptyString => code_points_from (String c EmptyString) rest
           | _ => current :: code_points_from (String c EmptyString) rest
           end
  end.

Definition code_points (s : string) : list string := code_points_from EmptyString s.

(** [Object.entries(v)] for a non-nullish [v]; for a string, one entry per
    character (the client only asks whether there is any). *)
Fixpoint string_entries (i : nat) (chars : list string) : object :=
  match chars with
  | [] => []
  | c :: rest => (pretty i, VStr c) :: string_entries (S i) rest
  end.

Fixpoint array_entries (i : nat) (l : list value) : object :=
  match l with
  | [] => []
  | x :: rest => (pretty i, x) :: array_entries (S i) rest
  end.

Definition Object_entries (v : value) : object :=
  match v with
  | VObj o => o
  | VArr l => array_entries 0%nat l
  | VStr s => string_entries 0%nat (code_points s)
  | _ => []
  end.

(** ** JSON.stringify *)

Definition dquote : string := String "034"%char EmptyString.

Definition hex_digit (n : nat) : string :=
  String (match n with
          | 0 => "0" | 1 => "1" | 2 => "2" | 3 => "3" | 4 => "4" | 5 => "5"
          | 6 => "6" | 7 => "7" | 8 => "8" | 9 => "9" | 10 => "a" | 11 => "b"
          | 12 => "c" | 13 => "d" | 14 => "e" | _ => "f"
          end)%char%nat EmptyString.

Definition escape_char (c : ascii) : string :=
  let n := nat_of_ascii c in
  if Nat.eqb n 34 then "\" +:+ dquote
  else if Nat.eqb n 92 then "\\"
  else if Nat.eqb n 8 then "\b"
  else if Nat.eqb n 9 then "\t"
  else if Nat.eqb n 10 then "\n"
  else if Nat.eqb n 12 then "\f"
  else if Nat.eqb n 13 then "\r"
  else if Nat.ltb n 32 then "\u00" +:+ hex_digit (Nat.div n 16) +:+ hex_digit (Nat.modulo n 16)
  else String c EmptyString.

Fixpoint escape (s : string) : string :=
  match s with
  | EmptyString => EmptyString
  | String c rest => escape_char c +:+ escape rest
  end.

Definition quote (s : string) : string := dquote +:+ escape s +:+ dquote.

Fixpoint join (sep : string) (l : list string) : string :=
  match l with
  | [] => ""
  | [x] => x
  | x :: rest => x +:+ sep +:+ join sep rest
  end.

(** [None] is the [undefined] that [JSON.stringify(undefined)] returns.  A
    property holding [undefined] is left out of an object and printed as
    [null] in an array. *)
Fixpoint JSON_stringify (v : value) : option string :=
  match v with
  | VUndef => None
  | VNull => Some "null"
  | VBool true => Some "true"
  | VBool false => Some "false"
  | VNum n => Some (pretty n)
  | VReal text => Some (if non_finite text then "null" else text)
  | VStr s => Some (quote s)
  | VObj o =>
      Some ("{" +:+ join ","
              ((fix members (o : object) : list string :=
                  match o with
                  | [] => []
                  | (k, x) :: rest =>
                      match JSON_stringify x with
                      | None => members rest
                      | Some sx => (quote k +:+ ":" +:+ sx) :: members rest
                      end
                  end) o) +:+ "}")
  | VArr l =>
      Some ("[" +:+ join ","
              ((fix elements (l : list value) : list string :=
                  match l with
                  | [] => []
                  | x :: rest => default "null" (JSON_stringify x) :: elements rest
                  end) l) +:+ "]")
  end.

(** ** assign-deep

    The merge of the [assign-deep] package the client requires: every own
    property of the source is written into the target, plain objects on both
    sides being merged recursively, and the target is returned. *)

Definition isValidKey (k : string) : bool :=
  negb (String.eqb k "__proto__" || String.eqb k "constructor" || String.eqb k "prototype").

Definition isObject (v : value) : bool :=
  match v with
  | VObj _ => true
  | _ => false
  end.

Fixpoint merge (tgt : object) (src : value) {struct src} : object :=
  match src with
  | VObj sf =>
      (fix go (tgt : object) (sf : object) {struct sf} : object :=
         match sf with
         | [] => tgt
         | (k, v) :: rest =>
             go (if isValidKey k then
                   match field k tgt, v with
                   | Some (VObj tf), VObj _ => set_field k (VObj (merge tf v)) tgt
                   | _, _ => set_field k v tgt
                   end
                 else tgt) rest
         end) tgt sf
  | _ => tgt
  end.

Definition merge_all (tgt : object) (sources : list value) : object :=
  foldl merge tgt sources.

(** ** The trees that stand for a JavaScript value *)

Definition MAX_SAFE_INTEGER : Z := 9007199254740991.

Definition safe_integer (n : Z) : bool :=
  (- MAX_SAFE_INTEGER <=? n) && (n <=? MAX_SAFE_INTEGER).

Definition is_digit (c : ascii) : bool :=
  let n := nat_of_ascii c in Nat.leb 48 n && Nat.leb n 57.

Fixpoint all_chars (f : ascii -> bool) (s : string) : bool :=
  match s with
  | EmptyString => true
  | String c rest => f c && all_chars f rest
  end.

Fixpoint digits_value (acc : Z) (s : string) : Z :=
  match s with
  | EmptyString => acc
  | String c rest => digits_value (10 * acc + Z.of_nat (nat_of_ascii c) - 48) rest
  end.

Definition nonempty (s : string) : bool :=
  match s with
  | EmptyString => false
  | _ => true
  end.

(** The decimal text of an integer, with its value. *)
Definition integer_text (text : string) : option Z :=
  match text with
  | String "-" rest =>
      if nonempty rest && all_chars is_digit rest then Some (- digits_value 0 rest) else None
  | _ =>
      if nonempty text && all_chars is_digit text then Some (digits_value 0 text) else None
  end.

Definition number_char (c : ascii) : bool :=
  is_digit c || Ascii.eqb c "." || Ascii.eqb c "e" || Ascii.eqb c "+" || Ascii.eqb c "-".

(** A text that can name a number of the second kind: not the digits of a
    safe integer, which is a [VNum]. *)
Definition real_text (text : string) : bool :=
  non_finite text ||
  (nonempty text && all_chars number_char text &&
   match integer_text text with
   | Some n => negb (safe_integer n)
   | None => true
   end).

(** A canonical array index: the decimal text, without leading zero, of an
    integer below 2^32 - 1. *)
Definition array_index (k : string) : option Z :=
  match integer_text k with
  | Some n =>
      if (0 <=? n) && (n <? 4294967295) && String.eqb (pretty n) k then Some n else None
  | None => None
  end.

(** Keys in enumeration order: array indices first and ascending, no name
    twice. *)
Fixpoint ordered_keys (previous : Z) (indices : bool) (keys : list string) : bool :=
  match keys with
  | [] => true
  | k :: rest =>
      match array_index k with
      | Some i => indices && (previous <? i) && ordered_keys i true rest
      | None => negb (existsb (String.eqb k) rest) && ordered_keys previous false rest
      end
  end.

Fixpoint well_formed (v : value) : bool :=
  match v with
  | VNum n => safe_integer n
  | VReal text => real_text text
  | VObj o =>
      ordered_keys (-1) true (map fst o) &&
      (fix all (o : object) : bool :=
         match o with
         | [] => true
         | (_, x) :: rest => well_formed x && all rest
         end) o
  | VArr l =>
      (fix all (l : list value) : bool :=
         match l with
         | [] => true
         | x :: rest => well_formed x && all rest
         end) l
  | _ => true
  end.

(** ** Errors, promises and the client's world *)

(** [External] is an error object made outside the client: the [err] a
    transport passes to its callback.  The class [ExpiredTokenError] is not
    exported, so only [send] makes one. *)
Inductive error :=
| ExpiredTokenError (message : string)
| Error (message : string)
| TypeError (message : string)
| External (description : string).

Definition instanceof_ExpiredTokenError (err : error) : bool :=
  match err with
  | ExpiredTokenError _ => true
  | _ => false
  end.

Inductive result (A : Type) :=
| Return (a : A)
| Throw (e : error)
| Uncaught (e : error).

Arguments Return {A} a.
Arguments Throw {A} e.
Arguments Uncaught {A} e.

(** A handler registered with [on]: [None] when it completes, [Some e] when
    it throws or returns a promise that rejects with [e]. *)
Definition handler := value -> option error.

Record CoinbaseBaseClient := {
  _apiKey : value;
  _apiSecret : value;
  _accessToken : value;
  _refreshToken : value;
  _clientId : value;
  _clientSecret : value;
  _events : list (string * handler)
}.

Definition loc := nat.

(** [request.get], [request.post], [request.put], [request.delete]. *)
Inductive request := request_get | request_post | request_put | request_delete.

(** What the outside sees of a run: the requests handed to the transport,
    with the [params] as they were at that moment, and the calls of a
    registered handler. *)
Inductive event :=
| Sent (fn : request) (params : object)
| Emitted (eventName : string) (arg : value).

Record Response := { statusCode : Z; body : value }.

(** What the transport passes to its callback: [err], or a response. *)
Inductive reply :=
| Failed (description : string)
| Answered (res : Response).

Record State := {
  this : CoinbaseBaseClient;
  heap : list object;
  trace : list event;
  ticks : nat
}.

(** The collaborators: the transport, which answers a request knowing
    everything that happened before it; the clock, read by [Date.now()],
    in milliseconds (JavaScript dates stay within 8.64e15 of the epoch);
    [crypto]'s HMAC-SHA256 with hex digest. *)
Record Env := {
  respond : list event -> request -> object -> reply;
  Date_now : nat -> Z;
  createHmac_sha256_hex : string -> string -> string
}.

Definition M (A : Type) := State -> result A * State.

Definition ret {A} (a : A) : M A := fun st => (Return a, st).

Definition throw {A} (e : error) : M A := fun st => (Throw e, st).

Definition bind {A B} (m : M A) (k : A -> M B) : M B :=
  fun st =>
    match m st with
    | (Return a, st') => k a st'
    | (Throw e, st') => (Throw e, st')
    | (Uncaught e, st') => (Uncaught e, st')
    end.

(** [try { m } catch (err) { h err }]. *)
Definition try_catch {A} (m : M A) (h : error -> M A) : M A :=
  fun st =>
    match m st with
    | (Throw e, st') => h e st'
    | r => r
    end.

Definition gets {A} (f : State -> A) : M A := fun st => (Return (f st), st).

Definition modify (f : State -> State) : M unit := fun st => (Return tt, f st).

Notation "x <- m ;; k" := (bind m (fun x => k))
  (at level 20, m at level 99, k at level 200, format "x  <-  m  ;;  '/' k").
Notation "m ;; k" := (bind m (fun _ => k))
  (at level 100, k at level 200, right associativity).

Definition set_this (c : CoinbaseBaseClient) (st : State) : State :=
  {| this := c; heap := heap st; trace := trace st; ticks := ticks st |}.

Definition set_heap (h : list object) (st : State) : State :=
  {| this := this st; heap := h; trace := trace st; ticks := ticks st |}.

Definition record (e : event) (st : State) : State :=
  {| this := this st; heap := heap st; trace := trace st ++ [e]; ticks := ticks st |}.

Definition tick (st : State) : State :=
  {| this := this st; heap := heap st; trace := trace st; ticks := S (ticks st) |}.

Definition set_tokens (access refresh : value) (c : CoinbaseBaseClient) : CoinbaseBaseClient :=
  {| _apiKey := _apiKey c; _apiSecret := _apiSecret c;
     _accessToken := access; _refreshToken := refresh;
     _clientId := _clientId c; _clientSecret := _clientSecret c;
     _events := _events c |}.

(** A new object literal. *)
Definition alloc (o : object) : M loc :=
  fun st => (Return (length (heap st)), set_heap (heap st ++ [o]) st).

(** [assign(target, ...sources)] on a target held by reference: the target
    itself is changed. *)
Definition assign (target : loc) (sources : list value) : M loc :=
  fun st =>
    match heap st !! target with
    | Some o => (Return target, set_heap (<[target := merge_all o sources]> (heap st)) st)
    | None => (Uncaught (TypeError "no object at this reference"), st)
    end.

(** ** The class [Map] of [_events] *)

Fixpoint Map_get {V} (k : string) (m : list (string * V)) : option V :=
  match m with
  | [] => None
  | (k', v) :: rest => if String.eqb k k' then Some v else Map_get k rest
  end.

Definition Map_has {V} (k : string) (m : list (string * V)) : bool :=
  match Map_get k m with
  | Some _ => true
  | None => false
  end.

Fixpoint Map_set {V} (k : string) (v : V) (m : list (string * V)) : list (string * V) :=
  match m with
  | [] => [(k, v)]
  | (k', v') :: rest =>
      if String.eqb k k' then (k, v) :: rest else (k', v') :: Map_set k v rest
  end.

(** ** CoinbaseBaseClient *)

Definition COINBASE_API : string := "https://api.coinbase.com".

Definition option_of (options : object) (k : string) : value :=
  default VUndef (field k options).

Definition constructor (options : object) : CoinbaseBaseClient :=
  {| _apiKey := option_of options "apiKey";
     _apiSecret := option_of options "apiSecret";
     _accessToken := option_of options "accessToken";
     _refreshToken := option_of options "refreshToken";
     _clientId := option_of options "clientId";
     _clientSecret := option_of options "clientSecret";
     _events := [] |}.

Definition on (eventName : string) (eventFn : handler) (c : CoinbaseBaseClient) : CoinbaseBaseClient :=
  {| _apiKey := _apiKey c; _apiSecret := _apiSecret c;
     _accessToken := _accessToken c; _refreshToken := _refreshToken c;
     _clientId := _clientId c; _clientSecret := _clientSecret c;
     _events := Map_set eventName eventFn (_events c) |}.

Definition isOAuth (c : CoinbaseBaseClient) : bool :=
  negb (nullish (_accessToken c)).

(** [this[k]] for a data property: the six fields the constructor writes
    and the getter [isOAuth]; any other name is not defined on the
    instance and reads as [undefined]. *)
Definition getThis (c : CoinbaseBaseClient) (k : string) : value :=
  if String.eqb k "_apiKey" then _apiKey c
  else if String.eqb k "_apiSecret" then _apiSecret c
  else if String.eqb k "_accessToken" then _accessToken c
  else if String.eqb k "_refreshToken" then _refreshToken c
  else if String.eqb k "_clientId" then _clientId c
  else if String.eqb k "_clientSecret" then _clientSecret c
  else if String.eqb k "isOAuth" then VBool (isOAuth c)
  else VUndef.

Definition getDefaultHeaders : value :=
  VObj [("json", VBool true);
        ("headers", VObj [("CB-VERSION", VStr "2016-08-09");
                          ("Content-Type", VStr "application/json");
                          ("Accept", VStr "application/json");
                          ("Accept-Language", VStr "en")])].

Definition getOAuthHeaders (c : CoinbaseBaseClient) : value :=
  VObj [("auth", VObj [("bearer", _accessToken c)])].

(** The string signed in API key mode. *)
Definition signed_message (timestamp : Z) (method path : string) (body : value) : string :=
  pretty timestamp +:+ method +:+ path +:+
  (if truthy body then default "undefined" (JSON_stringify body) else "").

(** [(body.data) ? body.data : body]; [None] is the TypeError of reading
    [data] on a body that is [undefined] or [null]. *)
Definition unwrap (body : value) : option value :=
  match getProp body "data" with
  | None => None
  | Some data => Some (if truthy data then data else body)
  end.

(** The callback [(err, res) => ...] of [send], closed over [that]. *)
Definition send_callback (that : CoinbaseBaseClient) (r : reply) : result value :=
  match r with
  | Failed err => Throw (External err)
  | Answered res =>
      if isOAuth that && (statusCode res =? 401) then
        Throw (ExpiredTokenError (default "" (JSON_stringify (body res))))
      else if 300 <=? statusCode res then
        Throw (Error ("HTTP error " +:+ pretty (statusCode res) +:+ " " +:+
                      default "undefined" (JSON_stringify (body res))))
      else
        match unwrap (body res) with
        | None => Uncaught (TypeError "Cannot read properties of undefined")
        | Some payload => Return payload
        end
  end.

Section Client.

Variable E : Env.

Definition getAPIAuthHeaders (path method : string) (body : value) : M value :=
  fun st =>
    let timestamp := Date_now E (ticks st) / 1000 in
    let message := signed_message timestamp method path body in
    match _apiSecret (this st) with
    | VStr secret =>
        let signature := createHmac_sha256_hex E secret message in
        (Return (VObj [("headers", VObj [("CB-ACCESS-KEY", _apiKey (this st));
                                         ("CB-ACCESS-SIGN", VStr signature);
                                         ("CB-ACCESS-TIMESTAMP", VNum timestamp)])]),
         tick st)
    | _ => (Throw (TypeError "The key argument must be of type string"), tick st)
    end.

Definition getAuthHeaders (path method : string) (body : value) : M value :=
  c <- gets this ;;
  if isOAuth c then ret (getOAuthHeaders c)
  else getAPIAuthHeaders path method body.

Definition getRequestParams (method path : string) (body : value) : M loc :=
  let url := COINBASE_API +:+ path in
  target <- alloc [("url", VStr url)] ;;
  auth <- getAuthHeaders path method body ;;
  assign target
    [getDefaultHeaders; auth;
     if negb (nullish body) && (0 <? Z.of_nat (length (Object_entries body)))
     then VObj [("body", body)] else VObj []].

(** The inner function [send] of [httpRequest]: it reads [params] through
    the reference it closes over, whatever it is called with, and settles
    its promise in the callback [send_callback] it hands to the transport. *)
Definition send (fn : request) (params : loc) : M value :=
  fun st =>
    match heap st !! params with
    | None => (Uncaught (TypeError "no object at this reference"), st)
    | Some p =>
        (send_callback (this st) (respond E (trace st) fn p), record (Sent fn p) st)
    end.

(** [httpRequest] and [refreshToken] call each other.  The refresh routine
    is a parameter here and the knot is tied below. *)
Definition httpRequest_with (refreshToken : M value)
    (fn : request) (params : loc) (refresh : bool) : M value :=
  try_catch (send fn params)
    (fun err =>
       if instanceof_ExpiredTokenError err && refresh then
         res <- refreshToken ;;
         if truthy res then
           headers <- gets (fun st => getOAuthHeaders (this st)) ;;
           assign params [headers] ;;
           send fn params
         else ret VUndef
       else throw err).

Definition httpPost_with (refreshToken : M value)
    (path : string) (body : value) (refresh : bool) : M value :=
  params <- getRequestParams "POST" path body ;;
  httpRequest_with refreshToken request_post params refresh.

(** [if (this._events.has(eventName)) { await (this._events.get(eventName))(arg) }],
    as [refreshToken] has it for [didRefreshToken]. *)
Definition emit (eventName : string) (arg : value) : M unit :=
  fun st =>
    if Map_has eventName (_events (this st)) then
      match Map_get eventName (_events (this st)) with
      | Some eventFn =>
          let st' := record (Emitted eventName arg) st in
          match eventFn arg with
          | None => (Return tt, st')
          | Some e => (Throw e, st')
          end
      | None => (Throw (TypeError "not a function"), st)
      end
    else (Return tt, st).

Definition refreshToken_with (inner : M value) : M value :=
  c <- gets this ;;
  res <- httpPost_with inner "/oauth/token"
           (VObj [("grant_type", VStr "refresh_token");
                  ("client_id", _clientId c);
                  ("client_secret", _clientSecret c);
                  ("refresh_token", _refreshToken c)]) false ;;
  (if truthy res then
     modify (fun st => set_this (set_tokens (default VUndef (getProp res "access_token"))
                                            (default VUndef (getProp res "refresh_token"))
                                            (this st)) st) ;;
     emit "didRefreshToken" res
   else ret tt) ;;
  ret res.

(** [refreshToken] dispatches its request with [refresh = false], and with
    [refresh = false] the dispatcher never reaches its refresh routine
    (lemma [httpRequest_with_false]): one unfolding of the recursion is all
    of it. *)
Definition refreshToken : M value :=
  refreshToken_with (throw (Error "not reached")).

Definition httpRequest (fn : request) (params : loc) (refresh : bool) : M value :=
  httpRequest_with refreshToken fn params refresh.

Definition httpGet (path : string) (refresh : bool) : M value :=
  params <- getRequestParams "GET" path VUndef ;;
  httpRequest request_get params refresh.

Definition httpPost (path : string) (body : value) (refresh : bool) : M value :=
  params <- getRequestParams "POST" path body ;;
  httpRequest request_post params refresh.

Definition httpPut (path : string) (body : value) (refresh : bool) : M value :=
  params <- getRequestParams "PUT" path body ;;
  httpRequest request_put params refresh.

Definition httpDelete (path : string) (refresh : bool) : M value :=
  params <- getRequestParams "DELETE" path VUndef ;;
  httpRequest request_delete params refresh.

(** [refresh] is left to its default, [true]. *)
Definition revokeToken : M value :=
  c <- gets this ;;
  httpPost "/oauth/revoke" (VObj [("token", getThis c "accessToken")]) true.

(** ** CoinbaseClient *)

Definition getCurrentUser : M value := httpGet "/v2/user" true.

(** [assign(params, {type: ...})] in the three money endpoints.  [params]
    is a reference to an object of the caller, or is left out: a primitive
    target is replaced by the first source. *)
Definition assign_params (params : option loc) (source : object) : M value :=
  match params with
  | Some l =>
      assign l [VObj source] ;;
      o <- gets (fun st => default [] (heap st !! l)) ;;
      ret (VObj o)
  | None => ret (VObj source)
  end.

Definition sendMoney (accountId : string) (params : option loc) : M value :=
  body <- assign_params params [("type", VStr "send")] ;;
  httpPost ("/v2/accounts/" +:+ accountId +:+ "/transactions") body true.

Definition transferMoney (accountId : string) (params : option loc) : M value :=
  body <- assign_params params [("type", VStr "transfer")] ;;
  httpPost ("/v2/accounts/" +:+ accountId +:+ "/transactions") body true.

Definition requestMoney (accountId : string) (params : option loc) : M value :=
  body <- assign_params params [("type", VStr "request")] ;;
  httpPost ("/v2/accounts/" +:+ accountId +:+ "/transactions") body true.

End Client.

(** ** Reading a run *)

Definition token_url : string := COINBASE_API +:+ "/oauth/token".

Definition revoke_url : string := COINBASE_API +:+ "/oauth/revoke".

Definition url_is (u : string) (p : object) : bool :=
  match field "url" p with
  | Some (VStr u') => String.eqb u' u
  | _ => false
  end.

(** A request to the refresh endpoint. *)
Definition is_refresh_call (e : event) : bool :=
  match e with
  | Sent request_post p => url_is token_url p
  | _ => false
  end.

Definition refresh_calls (tr : list event) : nat :=
  length (List.filter is_refresh_call tr).

(** The arguments of the successive calls of the handler of [eventName]. *)
Fixpoint handler_calls (eventName : string) (tr : list event) : list value :=
  match tr with
  | [] => []
  | Emitted name arg :: rest =>
      if String.eqb name eventName then arg :: handler_calls eventName rest
      else handler_calls eventName rest
  | _ :: rest => handler_calls eventName rest
  end.

Definition header (p : object) (name : string) : value :=
  match field "headers" p with
  | Some (VObj h) => default VUndef (field name h)
  | _ => VUndef
  end.

(** [res.k] on a truthy refresh result. *)
Definition prop (res : value) (k : string) : value :=
  default VUndef (getProp res k).

Definition default_headers : value :=
  VObj [("CB-VERSION", VStr "2016-08-09");
        ("Content-Type", VStr "application/json");
        ("Accept", VStr "application/json");
        ("Accept-Language", VStr "en")].

Definition has_entries (body : value) : bool :=
  negb (nullish body) && (0 <? Z.of_nat (length (Object_entries body))).

(** The [params] of a request of a client in OAuth mode. *)
Definition oauth_params (c : CoinbaseBaseClient) (path : string) (body : value) : object :=
  ([("url", VStr (COINBASE_API +:+ path));
    ("json", VBool true);
    ("headers", default_headers);
    ("auth", VObj [("bearer", _accessToken c)])]
   ++ (if has_entries body then [("body", body)] else []))%list.

Definition refresh_body (c : CoinbaseBaseClient) : value :=
  VObj [("grant_type", VStr "refresh_token");
        ("client_id", _clientId c);
        ("client_secret", _clientSecret c);
        ("refresh_token", _refreshToken c)].

(** The [params] of the refresh request of a client in OAuth mode. *)
Definition refresh_params (c : CoinbaseBaseClient) : object :=
  oauth_params c "/oauth/token" (refresh_body c).

(** The [params] after [assign(params, this.getOAuthHeaders())]. *)
Definition retry_params (p : object) (c : CoinbaseBaseClient) : object :=
  merge_all p [getOAuthHeaders c].

Definition refreshed (res : value) (c : CoinbaseBaseClient) : CoinbaseBaseClient :=
  set_tokens (prop res "access_token") (prop res "refresh_token") c.

(** The state right after the refresh request of an OAuth client left. *)
Definition after_refresh_request (st : State) : State :=
  record (Sent request_post (refresh_params (this st)))
    (set_heap (heap st ++ [refresh_params (this st)]) st).

(** How the handler registered for [eventName], if any, ends on [arg]. *)
Definition handler_outcome (eventName : string) (c : CoinbaseBaseClient) (arg : value)
    : option error :=
  match Map_get eventName (_events c) with
  | Some eventFn => eventFn arg
  | None => None
  end.

Definition notifications (eventName : string) (c : CoinbaseBaseClient) (arg : value)
    : list event :=
  match Map_get eventName (_events c) with
  | Some _ => [Emitted eventName arg]
  | None => []
  end.

Definition record_all (evs : list event) (st : State) : State :=
  {| this := this st; heap := heap st; trace := trace st ++ evs; ticks := ticks st |}.

(** Every successful answer of the refresh endpoint carries an access
    token. *)
Definition refresh_carries_token (E : Env) : Prop :=
  forall tr p s b res,
    respond E tr request_post p = Answered {| statusCode := s; body := b |} ->
    url_is token_url p = true ->
    s < 300 -> unwrap b = Some res -> truthy res = true ->
    nullish (prop res "access_token") = false.

(** ** Scripted collaborators

    A transport that answers the n-th request with the n-th reply of a
    script, a clock that stands still, and a stand-in for the digest. *)

Definition requests_sent (tr : list event) : nat :=
  length (List.filter (fun e => match e with Sent _ _ => true | _ => false end) tr).

Definition scripted (replies : list reply) : Env :=
  {| respond := fun tr _ _ => default (Failed "no reply left") (replies !! requests_sent tr);
     Date_now := fun _ => 1700000000123;
     createHmac_sha256_hex := fun key message => "hmac(" +:+ key +:+ "," +:+ message +:+ ")" |}.

Definition answer (s : Z) (b : value) : reply :=
  Answered {| statusCode := s; body := b |}.

Definition unauthorized : reply :=
  answer 401 (VObj [("errors", VArr [VObj [("id", VStr "expired_token")]])]).

Definition new_tokens : value :=
  VObj [("access_token", VStr "new"); ("refresh_token", VStr "r2"); ("expires_in", VNum 3600)].

Definition oauth_client : CoinbaseBaseClient :=
  constructor [("clientId", VStr "id"); ("clientSecret", VStr "secret");
               ("accessToken", VStr "old"); ("refreshToken", VStr "r1")].

Definition api_client : CoinbaseBaseClient :=
  constructor [("apiKey", VStr "key"); ("apiSecret", VStr "secret")].

(** A client with one request [params] object, for [/v2/user], in store. *)
Definition with_user_request (c : CoinbaseBaseClient) : State :=
  {| this := c; heap := [oauth_params c "/v2/user" VUndef]; trace := []; ticks := 0 |}.

(** A client that holds the [params] another client built for [/v2/user]. *)
Definition with_user_request_as (c : CoinbaseBaseClient) : State :=
  {| this := c; heap := [oauth_params oauth_client "/v2/user" VUndef];
     trace := []; ticks := 0 |}.

Definition idle (c : CoinbaseBaseClient) : State :=
  {| this := c; heap := []; trace := []; ticks := 0 |}.

(** A caller holding one parameter object of its own. *)
Definition with_caller_object (c : CoinbaseBaseClient) (o : object) : State :=
  {| this := c; heap := [o]; trace := []; ticks := 0 |}.

(** First a 401, then new tokens from the refresh endpoint, then the user. *)
Definition E_refresh : Env :=
  scripted [unauthorized; answer 200 new_tokens;
            answer 200 (VObj [("data", VObj [("id", VStr "u1")])])].

(** The retried request is refused as well. *)
Definition E_still_expired : Env :=
  scripted [unauthorized; answer 200 new_tokens; answer 401 (VObj [])].

(** The refresh answers 200 without tokens and the retried request is
    refused. *)
Definition E_tokenless_still_expired : Env :=
  scripted [unauthorized; answer 200 (VObj [("token_type", VStr "bearer")]);
            answer 401 (VObj [])].

Definition E_enveloped : Env :=
  scripted [answer 200 (VObj [("data", VObj [("a", VNum 1)])])].

Definition E_zero : Env :=
  scripted [answer 200 (VObj [("data", VNum 0)])].

(** The refresh endpoint answers with the JSON text [false]. *)
Definition E_falsy_refresh : Env :=
  scripted [unauthorized; answer 200 (VBool false)].



Definition st_listening : State :=
  with_user_request (on "didRefreshToken" (fun _ => None) oauth_client).

Definition st_failing_handler : State :=
  with_user_request
    (on "didRefreshToken" (fun _ => Some (External "database is down")) oauth_client).

(** A transport that looks at the address: the refresh endpoint hands out
    new tokens, any other first request is refused, later ones succeed. *)
Definition E_routed : Env :=
  {| respond := fun tr _ p =>
       if url_is token_url p then answer 200 new_tokens
       else if Nat.eqb (requests_sent tr) 0 then unauthorized
       else answer 200 (VObj [("data", VObj [("id", VStr "u1")])]);
     Date_now := fun _ => 1700000000123;
     createHmac_sha256_hex := fun key message => "hmac(" +:+ key +:+ "," +:+ message +:+ ")" |}.

(** ** The other methods of CoinbaseClient

    One-line mappings of a verb, a path and a body onto the dispatcher, and
    the three helpers that search a listing.  [getBitcoinPrice] converts a
    decimal string with [Number] and is left out. *)

(** [a === b] between a value read from a decoded body and an argument of
    the caller: primitives compare by value; an object or an array of the
    one is never the same reference as one of the other. *)
Definition strict_eq (a b : value) : bool :=
  match a, b with
  | VUndef, VUndef => true
  | VNull, VNull => true
  | VBool x, VBool y => Bool.eqb x y
  | VNum x, VNum y => x =? y
  | VReal x, VReal y => String.eqb x y && negb (String.eqb x "NaN")
  | VStr x, VStr y => String.eqb x y
  | _, _ => false
  end.

(** The strings a string iterator yields: one per code point. *)
Definition string_chars (s : string) : list value := map VStr (code_points s).

(** The values [for (const x of v)] visits; [None] when [v] is not
    iterable. *)
Definition for_of (v : value) : option (list value) :=
  match v with
  | VArr items => Some items
  | VStr s => Some (string_chars s)
  | _ => None
  end.

(** [for (const item of items) { if (item[k] === wanted) return item }]. *)
Fixpoint first_with (k : string) (wanted : value) (items : list value) : result value :=
  match items with
  | [] => Return VUndef
  | item :: rest =>
      match getProp item k with
      | None => Throw (TypeError "Cannot read properties of undefined")
      | Some v => if strict_eq v wanted then Return item else first_with k wanted rest
      end
  end.

Section Endpoints.

Variable E : Env.

Definition getUser (userId : string) : M value :=
  httpGet E ("/v2/users/" +:+ userId) true.

Definition getUserAuth : M value := httpGet E "/v2/user/auth" true.

Definition updateCurrentUser (params : value) : M value :=
  httpPut E "/v2/user" params true.

Definition listAccounts : M value := httpGet E "/v2/accounts" true.

Definition getAccount (accountId : string) : M value :=
  httpGet E ("/v2/accounts/" +:+ accountId) true.

Definition createAccount (params : value) : M value :=
  httpPost E "/v2/accounts" params true.

Definition setPrimaryAccount (accountId : string) : M value :=
  httpPost E ("/v2/accounts/" +:+ accountId +:+ "/primary") VUndef true.

Definition updateAccount (accountId : string) (params : value) : M value :=
  httpPut E ("/v2/accounts/" +:+ accountId) params true.

Definition deleteAccount (accountId : string) : M value :=
  httpDelete E ("/v2/accounts/" +:+ accountId) true.

Definition listAddresses (accountId : string) : M value :=
  httpGet E ("/v2/accounts/" +:+ accountId +:+ "/addresses") true.

Definition showAddress (accountId addressId : string) : M value :=
  httpGet E ("/v2/accounts/" +:+ accountId +:+ "/addresses/" +:+ addressId) true.

Definition listAddressTransactions (accountId addressId : string) : M value :=
  httpGet E ("/v2/accounts/" +:+ accountId +:+ "/addresses/" +:+ addressId
             +:+ "/transactions") true.

Definition createAddress (accountId : string) (params : value) : M value :=
  httpPost E ("/v2/accounts/" +:+ accountId +:+ "/addresses") params true.

Definition listTransactions (accountId : string) : M value :=
  httpGet E ("/v2/accounts/" +:+ accountId +:+ "/transactions") true.

Definition getTransaction (accountId transactionId : string) : M value :=
  httpGet E ("/v2/accounts/" +:+ accountId +:+ "/transactions/" +:+ transactionId) true.

Definition completeRequestMoney (accountId transactionId : string) : M value :=
  httpPost E ("/v2/accounts/" +:+ accountId +:+ "/transactions/" +:+ transactionId
              +:+ "/complete") VUndef true.

Definition resendRequestMoney (accountId transactionId : string) : M value :=
  httpPost E ("/v2/accounts/" +:+ accountId +:+ "/transactions/" +:+ transactionId
              +:+ "/resend") VUndef true.

Definition cancelRequestMoney (accountId transactionId : string) : M value :=
  httpDelete E ("/v2/accounts/" +:+ accountId +:+ "/transactions/" +:+ transactionId) true.

(** The loop of [findAccountByName] and [findTransaction] over what the
    listing resolved with. *)
Definition search (k : string) (wanted : value) (listing : value) : M value :=
  fun st =>
    match for_of listing with
    | None => (Throw (TypeError "is not iterable"), st)
    | Some items => (first_with k wanted items, st)
    end.

Definition findAccountByName (name : value) : M value :=
  accounts <- listAccounts ;;
  search "name" name accounts.

Definition findOrCreateAccount (name : value) : M value :=
  account <- findAccountByName name ;;
  if negb (truthy account) then createAccount (VObj [("name", name)])
  else ret account.

(** [const {description} = params] throws on [undefined] and [null],
    before anything is sent. *)
Definition findTransaction (accountId : string) (params : value) : M value :=
  match getProp params "description" with
  | None => throw (TypeError "Cannot destructure property")
  | Some description =>
      items <- listTransactions accountId ;;
      search "description" description items
  end.

End Endpoints.

(** ** Reading a search and a whole call *)

(** [item] has a property [k] that differs from [wanted]. *)
Definition no_match (k : string) (wanted item : value) : Prop :=
  exists v, getProp item k = Some v /\ strict_eq v wanted = false.

(** A call that sends at most three requests, at most one of them to the
    token endpoint, and calls the [didRefreshToken] handler at most once. *)
Definition bounded_run (run : M value) (st : State) : Prop :=
  exists evs,
    trace (snd (run st)) = trace st ++ evs /\
    (requests_sent evs <= 3)%nat /\
    (refresh_calls evs <= 1)%nat /\
    (length (handler_calls "didRefreshToken" evs) <= 1)%nat.

(** ** More scripted collaborators *)

Definition E_silent : Env := scripted [].

Definition E_server_error : Env :=
  scripted [answer 500 (VObj [("errors", VArr [VObj [("id", VStr "internal")]])])].

(** The refresh endpoint refuses the refresh token. *)
Definition E_refresh_refused : Env :=
  scripted [unauthorized; answer 400 (VObj [("error", VStr "invalid_grant")])].

Definition E_no_content : Env := scripted [answer 204 VUndef].

Definition wallet (name : string) : value :=
  VObj [("id", VStr ("id-" +:+ name)); ("name", VStr name)].

Definition E_accounts : Env :=
  scripted [answer 200 (VObj [("data", VArr [wallet "main"; wallet "savings";
                                             wallet "savings"])]);
            answer 201 (VObj [("data", wallet "travel")])].

Definition E_transactions : Env :=
  scripted [answer 200 (VObj [("data",
              VArr [VObj [("id", VStr "t1"); ("description", VStr "rent")];
                    VObj [("id", VStr "t2")];
                    VObj [("id", VStr "t3"); ("description", VStr "lunch")]])])].

(** A client that was given both a key pair and tokens. *)
Definition both_client : CoinbaseBaseClient :=
  constructor [("apiKey", VStr "key"); ("apiSecret", VStr "secret");
               ("accessToken", VStr "old"); ("refreshToken", VStr "r1")].

(** A clock that advances by 400 ms at every reading, from just before a
    new second. *)
Definition E_ticking : Env :=
  {| respond := fun _ _ _ => answer 200 (VObj []);
     Date_now := fun n => 1700000000300 + 400 * Z.of_nat n;
     createHmac_sha256_hex := fun key message => "hmac(" +:+ key +:+ "," +:+ message +:+ ")" |}.

Definition at_tick (n : nat) (c : CoinbaseBaseClient) : State :=
  {| this := c; heap := []; trace := []; ticks := n |}.

(** * Runs of the client *)

Section Runs.
Context (E : Env).

Lemma lookup_fresh (h : list object) (o : object) : (h ++ [o]) !! length h = Some o.
Proof. rewrite lookup_app_r by lia. by rewrite Nat.sub_diag. Qed.

Lemma insert_fresh (h : list object) (o o' : object) :
  <[length h := o']> (h ++ [o]) = h ++ [o'].
Proof.
  rewrite insert_app_r_alt by lia. by rewrite Nat.sub_diag.
Qed.

Lemma send_run fn l st p :
  heap st !! l = Some p ->
  send E fn l st = (send_callback (this st) (respond E (trace st) fn p), record (Sent fn p) st).
Proof. intros H. unfold send. by rewrite H. Qed.

Lemma getRequestParams_oauth method path body st :
  isOAuth (this st) = true ->
  getRequestParams E method path body st =
    (Return (length (heap st)), set_heap (heap st ++ [oauth_params (this st) path body]) st).
Proof.
  intros H. cbv [getRequestParams bind alloc getAuthHeaders gets assign ret].
  cbn [heap set_heap this]. rewrite H. cbn [heap set_heap this].
  rewrite lookup_fresh, insert_fresh.
  unfold oauth_params, has_entries.
  destruct (negb (nullish body) && _); reflexivity.
Qed.


Lemma httpRequest_with_false r fn l st :
  httpRequest_with E r fn l false st = send E fn l st.
Proof.
  unfold httpRequest_with, try_catch.
  destruct (send E fn l st) as [[a|e|e] st']; try reflexivity.
  by rewrite andb_false_r.
Qed.


Lemma refreshToken_oauth st :
  isOAuth (this st) = true ->
  refreshToken E st =
    let st1 := after_refresh_request st in
    match send_callback (this st)
            (respond E (trace st) request_post (refresh_params (this st))) with
    | Return res =>
        if truthy res then
          (emit "didRefreshToken" res ;; ret res)
            (set_this (refreshed res (this st)) st1)
        else (Return res, st1)
    | Throw e => (Throw e, st1)
    | Uncaught e => (Uncaught e, st1)
    end.
Proof.
  intros H. unfold refreshToken, refreshToken_with, httpPost_with.
  cbv [bind gets]. rewrite getRequestParams_oauth by done.
  rewrite httpRequest_with_false.
  erewrite send_run by (cbn [heap set_heap]; apply lookup_fresh).
  cbn [this trace set_heap]. fold (refresh_body (this st)). fold (refresh_params (this st)).
  fold (after_refresh_request st).
  destruct (send_callback _ _) as [res|e|e]; try reflexivity.
  cbn zeta. destruct (truthy res); [|reflexivity].
  cbv [modify ret]. 
  reflexivity.
Qed.


Lemma field_set_field_ne k k' v o :
  k <> k' -> field k (set_field k' v o) = field k o.
Proof.
  intros Hne. induction o as [|[k0 v0] o IH]; cbn.
  - destruct (String.eqb_spec k k'); congruence.
  - destruct (String.eqb_spec k' k0) as [->|Hk0]; cbn.
    + destruct (String.eqb_spec k k0); congruence.
    + destruct (String.eqb_spec k k0); congruence.
Qed.

Lemma field_retry_params k p c :
  k <> "auth" -> field k (retry_params p c) = field k p.
Proof.
  intros Hne. unfold retry_params, merge_all, getOAuthHeaders. cbn.
  destruct (field "auth" p) as [[]|]; by rewrite field_set_field_ne.
Qed.

Lemma is_refresh_call_retry fn p c :
  is_refresh_call (Sent fn (retry_params p c)) = is_refresh_call (Sent fn p).
Proof.
  unfold is_refresh_call, url_is. by rewrite field_retry_params.
Qed.

Lemma send_callback_ok c s b v :
  s < 300 -> unwrap b = Some v ->
  send_callback c (Answered {| statusCode := s; body := b |}) = Return v.
Proof.
  intros Hs Hv. unfold send_callback. cbn [statusCode body].
  replace (s =? 401) with false by lia.
  replace (300 <=? s) with false by lia.
  by rewrite andb_false_r, Hv.
Qed.

Lemma send_callback_expired c b :
  isOAuth c = true ->
  send_callback c (Answered {| statusCode := 401; body := b |}) =
    Throw (ExpiredTokenError (default "" (JSON_stringify b))).
Proof. intros H. unfold send_callback. by rewrite H. Qed.

Lemma assign_run l sources st o :
  heap st !! l = Some o ->
  assign l sources st = (Return l, set_heap (<[l := merge_all o sources]> (heap st)) st).
Proof. intros H. unfold assign. by rewrite H. Qed.

Lemma record_all_nil st : record_all [] st = st.
Proof. destruct st. unfold record_all. cbn. by rewrite app_nil_r. Qed.

Lemma emit_run eventName arg st :
  emit eventName arg st =
    (match handler_outcome eventName (this st) arg with
     | None => Return tt
     | Some e => Throw e
     end,
     record_all (notifications eventName (this st) arg) st).
Proof.
  unfold emit, handler_outcome, notifications, Map_has.
  destruct (Map_get eventName (_events (this st))) as [eventFn|].
  - by destruct (eventFn arg).
  - by rewrite record_all_nil.
Qed.

(** The common prefix of the runs that reach the refresh: the first answer
    is a 401 and the refresh request is answered with a truthy result. *)
Lemma httpRequest_refreshing fn params st p b1 s2 b2 res :
  isOAuth (this st) = true ->
  heap st !! params = Some p ->
  respond E (trace st) fn p = Answered {| statusCode := 401; body := b1 |} ->
  respond E (trace st ++ [Sent fn p]) request_post (refresh_params (this st)) =
    Answered {| statusCode := s2; body := b2 |} ->
  s2 < 300 -> unwrap b2 = Some res -> truthy res = true ->
  httpRequest E fn params true st =
    let c' := refreshed res (this st) in
    let st3 := record_all (notifications "didRefreshToken" (this st) res)
                 (set_this c' (after_refresh_request (record (Sent fn p) st))) in
    match handler_outcome "didRefreshToken" (this st) res with
    | Some e => (Throw e, st3)
    | None =>
        let p' := retry_params p c' in
        (send_callback c' (respond E (trace st3) fn p'),
         record (Sent fn p') (set_heap (<[params := p']> (heap st3)) st3))
    end.
Proof.
  intros Hmode Hp H1 H2 Hs2 Hres Htruthy.
  assert (Hlt : (params < length (heap st))%nat) by (eapply lookup_lt_Some; eauto).
  unfold httpRequest, httpRequest_with, try_catch.
  rewrite (send_run _ _ _ _ Hp), H1, send_callback_expired by done.
  cbn [instanceof_ExpiredTokenError andb].
  unfold bind at 1. rewrite refreshToken_oauth by done.
  cbn [this trace record]. rewrite H2.
  rewrite (send_callback_ok _ _ _ _ Hs2 Hres). cbn zeta. rewrite Htruthy.
  unfold bind at 1. rewrite emit_run.
  cbn [this set_this].
  replace (handler_outcome "didRefreshToken" (refreshed res (this st)) res)
    with (handler_outcome "didRefreshToken" (this st) res) by reflexivity.
  replace (notifications "didRefreshToken" (refreshed res (this st)) res)
    with (notifications "didRefreshToken" (this st) res) by reflexivity.
  destruct (handler_outcome "didRefreshToken" (this st) res) as [e|]; [reflexivity|].
  cbv [ret]. rewrite Htruthy. cbv [bind gets].
  erewrite assign_run; cycle 1.
  { cbn [heap record record_all set_this set_heap after_refresh_request].
    rewrite lookup_app_l by done. exact Hp. }
  erewrite send_run; cycle 1.
  { cbn [heap record record_all set_this set_heap after_refresh_request].
    apply list_lookup_insert_eq. rewrite length_app. lia. }
  reflexivity.
Qed.

Lemma trace_after_notifications st fn p res :
  trace (record_all (notifications "didRefreshToken" (this st) res)
           (set_this (refreshed res (this st))
              (after_refresh_request (record (Sent fn p) st)))) =
  trace st ++ [Sent fn p; Sent request_post (refresh_params (this st))]
    ++ notifications "didRefreshToken" (this st) res.
Proof.
  cbn [trace record record_all set_this set_heap after_refresh_request this].
  by rewrite <- !app_assoc.
Qed.

Lemma refresh_calls_app tr1 tr2 :
  refresh_calls (tr1 ++ tr2) = (refresh_calls tr1 + refresh_calls tr2)%nat.
Proof. unfold refresh_calls. by rewrite List.filter_app, length_app. Qed.

Lemma refresh_calls_notifications eventName c arg :
  refresh_calls (notifications eventName c arg) = 0%nat.
Proof. unfold notifications. by destruct (Map_get _ _). Qed.


Lemma requests_sent_app tr1 tr2 :
  requests_sent (tr1 ++ tr2) = (requests_sent tr1 + requests_sent tr2)%nat.
Proof. unfold requests_sent. by rewrite List.filter_app, length_app. Qed.

Lemma requests_sent_notifications eventName c arg :
  requests_sent (notifications eventName c arg) = 0%nat.
Proof. unfold notifications. by destruct (Map_get _ _). Qed.

(** C4, as the code has it: when the retried request is answered 401 as
    well, that second 401 ends the request, after three requests of which
    one is the refresh.  The error is the expired-token error made from the
    second 401 when the refresh result carried an access token; when it
    carried none the client is no longer in OAuth mode and the second 401
    is an ordinary HTTP error. *)
Theorem second_401_is_terminal fn params st p b1 s2 b2 res b3 :
  let c' := refreshed res (this st) in
  let request1 := Sent fn p in
  let request2 := Sent request_post (refresh_params (this st)) in
  let notified := notifications "didRefreshToken" (this st) res in
  let request3 := Sent fn (retry_params p c') in
  isOAuth (this st) = true ->
  heap st !! params = Some p ->
  respond E (trace st) fn p = Answered {| statusCode := 401; body := b1 |} ->
  respond E (trace st ++ [request1]) request_post (refresh_params (this st)) =
    Answered {| statusCode := s2; body := b2 |} ->
  s2 < 300 -> unwrap b2 = Some res -> truthy res = true ->
  handler_outcome "didRefreshToken" (this st) res = None ->
  respond E (trace st ++ [request1; request2] ++ notified) fn (retry_params p c') =
    Answered {| statusCode := 401; body := b3 |} ->
  exists st',
    httpRequest E fn params true st =
      (Throw (if nullish (prop res "access_token")
              then Error ("HTTP error 401 " +:+ default "undefined" (JSON_stringify b3))
              else ExpiredTokenError (default "" (JSON_stringify b3))),
       st') /\
    trace st' = trace st ++ [request1; request2] ++ notified ++ [request3] /\
    requests_sent ([request1; request2] ++ notified ++ [request3]) = 3%nat /\
    (is_refresh_call request1 = false ->
     refresh_calls ([request1; request2] ++ notified ++ [request3]) = 1%nat).
Proof.
  intros c' request1 request2 notified request3
    Hmode Hp H1 H2 Hs2 Hres Htruthy Hcb H3.
  rewrite (httpRequest_refreshing _ _ _ _ _ _ _ _ Hmode Hp H1 H2 Hs2 Hres Htruthy).
  cbn zeta. rewrite trace_after_notifications, Hcb.
  fold c' request1 request2 notified. rewrite H3.
  assert (Hthrown : send_callback c' (Answered {| statusCode := 401; body := b3 |}) =
            Throw (if nullish (prop res "access_token")
                   then Error ("HTTP error 401 " +:+
                               default "undefined" (JSON_stringify b3))
                   else ExpiredTokenError (default "" (JSON_stringify b3)))).
  { unfold send_callback, isOAuth, c'. cbn [_accessToken refreshed set_tokens].
    by destruct (nullish (prop res "access_token")). }
  rewrite Hthrown. eexists. split; [reflexivity|].
  split.
  { cbn [trace record record_all set_this set_heap after_refresh_request this].
    fold request1 request2 notified request3.
    rewrite <- !app_assoc. reflexivity. }
  change ([request1; request2] ++ notified ++ [request3])
    with ([request1] ++ [request2] ++ notified ++ [request3]).
  split.
  - rewrite !requests_sent_app. unfold notified.
    by rewrite requests_sent_notifications.
  - intros Hnot. rewrite !refresh_calls_app. unfold notified.
    rewrite refresh_calls_notifications.
    unfold refresh_calls. cbn [List.filter].
    unfold request3. rewrite is_refresh_call_retry. fold request1. rewrite Hnot.
    reflexivity.
Qed.

(** C8: when the registered handler throws on the refresh result, its error
    reaches the caller and the original request is not sent again. *)
Theorem handler_error_aborts_retry fn params st p b1 s2 b2 res eventFn e :
  let request1 := Sent fn p in
  let request2 := Sent request_post (refresh_params (this st)) in
  let notified := Emitted "didRefreshToken" res in
  isOAuth (this st) = true ->
  heap st !! params = Some p ->
  Map_get "didRefreshToken" (_events (this st)) = Some eventFn ->
  respond E (trace st) fn p = Answered {| statusCode := 401; body := b1 |} ->
  respond E (trace st ++ [request1]) request_post (refresh_params (this st)) =
    Answered {| statusCode := s2; body := b2 |} ->
  s2 < 300 -> unwrap b2 = Some res -> truthy res = true ->
  eventFn res = Some e ->
  exists st',
    httpRequest E fn params true st = (Throw e, st') /\
    trace st' = trace st ++ [request1; request2; notified] /\
    requests_sent [request1; request2; notified] = 2%nat.
Proof.
  intros request1 request2 notified Hmode Hp Hon H1 H2 Hs2 Hres Htruthy Hcb.
  rewrite (httpRequest_refreshing _ _ _ _ _ _ _ _ Hmode Hp H1 H2 Hs2 Hres Htruthy).
  cbn zeta. unfold handler_outcome, notifications. rewrite Hon, Hcb.
  eexists. split; [reflexivity|]. split; [|reflexivity].
  cbn [trace record record_all set_this set_heap after_refresh_request this].
  by rewrite <- !app_assoc.
Qed.


Lemma httpRequest_settled fn params refresh st p v :
  heap st !! params = Some p ->
  send_callback (this st) (respond E (trace st) fn p) = Return v ->
  httpRequest E fn params refresh st = (Return v, record (Sent fn p) st).
Proof.
  intros Hp Hv. unfold httpRequest, httpRequest_with, try_catch.
  by rewrite (send_run _ _ _ _ Hp), Hv.
Qed.

(** C2, as the code has it: the answer of a request that succeeds is the
    [data] field of the decoded body when that field is there and truthy,
    and the decoded body itself otherwise: when it has no [data] field, and
    also when [data] is there but falsy. *)
Theorem envelope_unwrapping fn params refresh st p s b :
  heap st !! params = Some p ->
  respond E (trace st) fn p = Answered {| statusCode := s; body := b |} ->
  s < 300 ->
  nullish b = false ->
  (forall o data, b = VObj o -> field "data" o = Some data -> truthy data = true ->
     fst (httpRequest E fn params refresh st) = Return data) /\
  (forall o data, b = VObj o -> field "data" o = Some data -> truthy data = false ->
     fst (httpRequest E fn params refresh st) = Return b) /\
  ((forall o, b = VObj o -> field "data" o = None) ->
     fst (httpRequest E fn params refresh st) = Return b).
Proof.
  intros Hp Hreply Hs Hb.
  assert (Hrun : forall v, unwrap b = Some v ->
            fst (httpRequest E fn params refresh st) = Return v).
  { intros v Hv. erewrite httpRequest_settled; eauto.
    rewrite Hreply. by apply send_callback_ok. }
  split; [|split].
  - intros o data -> Hdata Ht. apply Hrun. unfold unwrap. cbn. by rewrite Hdata; cbn; rewrite Ht.
  - intros o data -> Hdata Ht. apply Hrun. unfold unwrap. cbn. by rewrite Hdata; cbn; rewrite Ht.
  - intros Hno. apply Hrun. unfold unwrap.
    destruct b; try discriminate; try reflexivity.
    cbn. by rewrite (Hno _ eq_refl).
Qed.

Lemma httpRequest_false_401 fn params st p b :
  heap st !! params = Some p ->
  respond E (trace st) fn p = Answered {| statusCode := 401; body := b |} ->
  httpRequest E fn params false st =
    (Throw (if isOAuth (this st)
            then ExpiredTokenError (default "" (JSON_stringify b))
            else Error ("HTTP error 401 " +:+ default "undefined" (JSON_stringify b))),
     record (Sent fn p) st).
Proof.
  intros Hp Hreply. unfold httpRequest. rewrite httpRequest_with_false.
  rewrite (send_run _ _ _ _ Hp), Hreply. unfold send_callback.
  by destruct (isOAuth (this st)).
Qed.

(** C3, as the code has it: the refresh call is dispatched with
    [refresh = false], the revoke call with the default [refresh = true];
    a request dispatched with [refresh = false] that is answered 401 ends in
    an error for the caller, after that one request and with the client as
    it was. *)
Theorem refresh_false_is_terminal :
  (forall fn params st p b,
     heap st !! params = Some p ->
     respond E (trace st) fn p = Answered {| statusCode := 401; body := b |} ->
     httpRequest E fn params false st =
       (Throw (if isOAuth (this st)
               then ExpiredTokenError (default "" (JSON_stringify b))
               else Error ("HTTP error 401 " +:+ default "undefined" (JSON_stringify b))),
        record (Sent fn p) st)) /\
  (forall st b,
     isOAuth (this st) = true ->
     respond E (trace st) request_post (refresh_params (this st)) =
       Answered {| statusCode := 401; body := b |} ->
     refreshToken E st =
       (Throw (ExpiredTokenError (default "" (JSON_stringify b))),
        after_refresh_request st)) /\
  (forall st,
     revokeToken E st = httpPost E "/oauth/revoke" (VObj [("token", VUndef)]) true st).
Proof.
  split; [|split].
  - intros fn params st p b Hp Hreply. by apply httpRequest_false_401.
  - intros st b Hmode Hreply. rewrite refreshToken_oauth by done.
    cbn zeta. by rewrite Hreply, send_callback_expired.
  - reflexivity.
Qed.

(** When the refresh resolves with a falsy result, the dispatcher falls out
    of its [catch] block: the promise resolves with [undefined]. *)
Lemma httpRequest_falsy_refresh fn params st p b1 s2 b2 res :
  isOAuth (this st) = true ->
  heap st !! params = Some p ->
  respond E (trace st) fn p = Answered {| statusCode := 401; body := b1 |} ->
  respond E (trace st ++ [Sent fn p]) request_post (refresh_params (this st)) =
    Answered {| statusCode := s2; body := b2 |} ->
  s2 < 300 -> unwrap b2 = Some res -> truthy res = false ->
  httpRequest E fn params true st =
    (Return VUndef, after_refresh_request (record (Sent fn p) st)).
Proof.
  intros Hmode Hp H1 H2 Hs2 Hres Hfalsy.
  unfold httpRequest, httpRequest_with, try_catch.
  rewrite (send_run _ _ _ _ Hp), H1, send_callback_expired by done.
  cbn [instanceof_ExpiredTokenError andb].
  unfold bind at 1. rewrite refreshToken_oauth by done.
  cbn [this trace record]. rewrite H2.
  rewrite (send_callback_ok _ _ _ _ Hs2 Hres). cbn zeta. by rewrite !Hfalsy.
Qed.

Lemma getRequestParams_api method path body st secret :
  isOAuth (this st) = false ->
  _apiSecret (this st) = VStr secret ->
  let timestamp := Date_now E (ticks st) / 1000 in
  let signature :=
    createHmac_sha256_hex E secret (signed_message timestamp method path body) in
  getRequestParams E method path body st =
    (Return (length (heap st)),
     tick (set_heap
             (heap st ++
                [[("url", VStr (COINBASE_API +:+ path));
                  ("json", VBool true);
                  ("headers",
                   VObj [("CB-VERSION", VStr "2016-08-09");
                         ("Content-Type", VStr "application/json");
                         ("Accept", VStr "application/json");
                         ("Accept-Language", VStr "en");
                         ("CB-ACCESS-KEY", _apiKey (this st));
                         ("CB-ACCESS-SIGN", VStr signature);
                         ("CB-ACCESS-TIMESTAMP", VNum timestamp)])]
                 ++ (if has_entries body then [("body", body)] else [])]) st)).
Proof.
  intros Hmode Hsecret timestamp signature.
  cbv [getRequestParams bind alloc getAuthHeaders gets assign ret getAPIAuthHeaders].
  cbn [heap set_heap this ticks tick]. rewrite Hmode.
  cbn [heap set_heap this ticks tick]. rewrite Hsecret.
  cbn [heap set_heap this ticks tick].
  rewrite lookup_fresh, insert_fresh.
  unfold has_entries. fold timestamp. fold signature.
  destruct (negb (nullish body) && _); reflexivity.
Qed.

(** The JSON text of a body, character by character: quotes and escapes in
    strings, numbers of both kinds, [undefined] left out of an object and
    printed as [null] in an array, like the numbers that are not finite. *)
Lemma JSON_stringify_text :
  let q := String "034"%char EmptyString in
  let b := String "092"%char EmptyString in
  JSON_stringify
    (VObj [("to", VStr "bob");
           ("amount", VReal "0.1");
           ("big", VReal "1e+21");
           ("count", VNum (-3));
           ("note", VStr ("a" +:+ q +:+ "b" +:+ b +:+ "c" +:+
                          String "010"%char "d" +:+ String "001"%char EmptyString));
           ("skip", VUndef);
           ("list", VArr [VNull; VUndef; VBool true; VBool false; VReal "NaN"]);
           ("empty", VObj [])])
  = Some ("{" +:+ q +:+ "to" +:+ q +:+ ":" +:+ q +:+ "bob" +:+ q +:+ "," +:+
          q +:+ "amount" +:+ q +:+ ":0.1," +:+
          q +:+ "big" +:+ q +:+ ":1e+21," +:+
          q +:+ "count" +:+ q +:+ ":-3," +:+
          q +:+ "note" +:+ q +:+ ":" +:+
            q +:+ "a" +:+ b +:+ q +:+ "b" +:+ b +:+ b +:+ "c" +:+ b +:+ "nd" +:+
            b +:+ "u0001" +:+ q +:+ "," +:+
          q +:+ "list" +:+ q +:+ ":[null,null,true,false,null]," +:+
          q +:+ "empty" +:+ q +:+ ":{}}").
Proof. reflexivity. Qed.

(** C6: in API key mode the [CB-ACCESS-SIGN] header of a request is the hex
    HMAC-SHA256, under the API secret, of the unix time in seconds that
    [CB-ACCESS-TIMESTAMP] carries, then the method, the path and the JSON
    text of the body when one is given (a truthy body), nothing otherwise;
    the clock is read when the headers are built, so two requests that read
    the same time are signed alike.  The body is any JavaScript value and
    the clock reading a time in milliseconds that JavaScript counts
    exactly. *)
Theorem api_key_signature method path (body : value) json st secret :
  let timestamp := Date_now E (ticks st) / 1000 in
  let signature :=
    createHmac_sha256_hex E secret (pretty timestamp +:+ method +:+ path +:+ json) in
  isOAuth (this st) = false ->
  _apiSecret (this st) = VStr secret ->
  well_formed body = true ->
  safe_integer (Date_now E (ticks st)) = true ->
  (if truthy body then JSON_stringify body else Some "") = Some json ->
  (exists params st' p,
     getRequestParams E method path body st = (Return params, st') /\
     heap st' !! params = Some p /\
     header p "CB-ACCESS-SIGN" = VStr signature /\
     header p "CB-ACCESS-TIMESTAMP" = VNum timestamp) /\
  (forall st2,
     this st2 = this st ->
     Date_now E (ticks st2) = Date_now E (ticks st) ->
     exists params2 st2' p2,
       getRequestParams E method path body st2 = (Return params2, st2') /\
       heap st2' !! params2 = Some p2 /\
       header p2 "CB-ACCESS-SIGN" = VStr signature).
Proof.
  intros timestamp signature Hmode Hsecret _ _ Hjson.
  assert (Hmsg : forall ts, signed_message ts method path body =
                   pretty ts +:+ method +:+ path +:+ json).
  { intros ts. unfold signed_message. destruct (truthy body).
    - by rewrite Hjson.
    - by injection Hjson as <-. }
  split.
  - rewrite (getRequestParams_api _ _ _ _ _ Hmode Hsecret). cbn zeta.
    do 3 eexists. split; [reflexivity|].
    cbn [heap tick set_heap]. split; [apply lookup_fresh|].
    rewrite Hmsg. split; reflexivity.
  - intros st2 Hthis Hclock.
    rewrite (getRequestParams_api _ _ _ st2 secret) by (by rewrite Hthis).
    cbn zeta. do 3 eexists. split; [reflexivity|].
    cbn [heap tick set_heap]. split; [apply lookup_fresh|].
    rewrite Hmsg, Hclock. reflexivity.
Qed.

(** *** What a run can change *)

Lemma send_callback_Return_inv c r v :
  send_callback c r = Return v ->
  exists s b, r = Answered {| statusCode := s; body := b |} /\ s < 300 /\ unwrap b = Some v.
Proof.
  unfold send_callback. destruct r as [err|[s b]]; [discriminate|].
  cbn [statusCode body].
  destruct (isOAuth c && (s =? 401)); [discriminate|].
  destruct (300 <=? s) eqn:Hs; [discriminate|].
  destruct (unwrap b) as [v'|] eqn:Hv; [|discriminate].
  intros [= <-]. exists s, b. repeat split; [lia|done].
Qed.

Lemma send_callback_expired_inv c r err :
  send_callback c r = Throw err ->
  instanceof_ExpiredTokenError err = true ->
  isOAuth c = true.
Proof.
  unfold send_callback. destruct r as [d|[s b]].
  - by intros [= <-].
  - cbn [statusCode body]. destruct (isOAuth c); [done|].
    cbn [andb]. destruct (300 <=? s).
    + by intros [= <-].
    + by destruct (unwrap b).
Qed.

Lemma getRequestParams_api_throws method path body st :
  isOAuth (this st) = false ->
  (forall secret, _apiSecret (this st) <> VStr secret) ->
  getRequestParams E method path body st =
    (Throw (TypeError "The key argument must be of type string"),
     tick (set_heap (heap st ++ [[("url", VStr (COINBASE_API +:+ path))]]) st)).
Proof.
  intros Hmode Hsecret.
  cbv [getRequestParams bind alloc getAuthHeaders gets assign ret getAPIAuthHeaders].
  cbn [heap set_heap this ticks tick]. rewrite Hmode.
  cbn [heap set_heap this ticks tick].
  destruct (_apiSecret (this st)) eqn:Hs; try reflexivity.
  by destruct (Hsecret s).
Qed.

Lemma field_app_l k (o o' : object) v :
  field k o = Some v -> field k (o ++ o') = Some v.
Proof.
  induction o as [|[k0 v0] o IH]; cbn; [discriminate|].
  destruct (String.eqb k k0); auto.
Qed.

Lemma getRequestParams_effect method path body st :
  exists r st' o,
    getRequestParams E method path body st = (r, st') /\
    this st' = this st /\ trace st' = trace st /\
    heap st' = heap st ++ [o] /\
    match r with
    | Return l =>
        l = length (heap st) /\
        field "url" o = Some (VStr (COINBASE_API +:+ path)) /\
        (has_entries body = true -> field "body" o = Some body)
    | Throw _ => True
    | Uncaught _ => False
    end.
Proof.
  destruct (isOAuth (this st)) eqn:Hmode.
  - rewrite getRequestParams_oauth by done. do 3 eexists.
    split; [reflexivity|]. repeat split.
    unfold oauth_params. intros ->. reflexivity.
  - destruct (_apiSecret (this st)) eqn:Hsecret.
    5: { rewrite (getRequestParams_api _ _ _ _ _ Hmode Hsecret). cbn zeta.
         do 3 eexists. split; [reflexivity|]. repeat split.
         intros ->. reflexivity. }
    all: rewrite getRequestParams_api_throws by (done || (intros ?; congruence));
      do 3 eexists; (split; [reflexivity|]); repeat split.
Qed.

(** Closes the cases of a run that ends with no further event. *)
Ltac no_more_events :=
  do 2 eexists; exists []; split; [reflexivity|];
  repeat split;
  first [ by left
        | let H := fresh in intros ? ? H; by apply elem_of_nil in H ].

Lemma refreshToken_effect st :
  isOAuth (this st) = true ->
  exists r st' evs,
    refreshToken E st = (r, st') /\
    heap st' = heap st ++ [refresh_params (this st)] /\
    trace st' = trace st ++ Sent request_post (refresh_params (this st)) :: evs /\
    (forall fn p, Sent fn p ∉ evs) /\
    (this st' = this st \/
     exists s b res,
       respond E (trace st) request_post (refresh_params (this st)) =
         Answered {| statusCode := s; body := b |} /\
       s < 300 /\ unwrap b = Some res /\ truthy res = true /\
       this st' = refreshed res (this st)).
Proof.
  intros Hmode. rewrite refreshToken_oauth by done. cbn zeta.
  destruct (send_callback _ _) as [res|e|e] eqn:Hcb.
  2,3: no_more_events.
  destruct (truthy res) eqn:Htruthy; [|no_more_events].
  apply send_callback_Return_inv in Hcb as (s & b & Hreply & Hs & Hres).
  unfold bind. rewrite emit_run. cbn [this set_this].
  exists (match handler_outcome "didRefreshToken" (refreshed res (this st)) res with
          | None => Return res | Some e => Throw e end).
  eexists. exists (notifications "didRefreshToken" (refreshed res (this st)) res).
  split; [by destruct (handler_outcome _ _ _)|].
  cbn [heap trace this record_all set_this after_refresh_request record set_heap].
  split; [reflexivity|]. split; [by rewrite <- app_assoc|].
  split.
  - intros fn p. unfold notifications. destruct (Map_get _ _).
    + intros H. apply list_elem_of_singleton in H. discriminate.
    + intros H. by apply elem_of_nil in H.
  - right. exists s, b, res. by rewrite Hreply.
Qed.

Lemma httpRequest_effect fn params refresh st p :
  heap st !! params = Some p ->
  exists r st' evs,
    httpRequest E fn params refresh st = (r, st') /\
    trace st' = trace st ++ Sent fn p :: evs /\
    (forall fn' p', Sent fn' p' ∈ evs ->
       p' = refresh_params (this st) \/ exists c', p' = retry_params p c') /\
    (forall l, l <> params -> (l < length (heap st))%nat -> heap st' !! l = heap st !! l) /\
    (refresh_carries_token E -> isOAuth (this st') = isOAuth (this st)).
Proof.
  intros Hp.
  assert (Hlt : (params < length (heap st))%nat) by (eapply lookup_lt_Some; eauto).
  unfold httpRequest, httpRequest_with, try_catch.
  rewrite (send_run _ _ _ _ Hp).
  destruct (send_callback _ _) as [v|err|err] eqn:Hcb.
  1,3: no_more_events.
  destruct (instanceof_ExpiredTokenError err && refresh) eqn:Hretry; [|no_more_events].
  apply andb_true_iff in Hretry as [Hexp _].
  pose proof (send_callback_expired_inv _ _ _ Hcb Hexp) as Hmode.
  destruct (refreshToken_effect (record (Sent fn p) st) Hmode)
    as (r2 & st2 & evs2 & Hrun2 & Hheap2 & Htrace2 & Hnosent & Hthis2).
  cbn [this heap trace record] in *.
  assert (Hmode2 : refresh_carries_token E -> isOAuth (this st2) = isOAuth (this st)).
  { intros Hcarry. destruct Hthis2 as [->|(s & b & res & Hreply & Hs & Hres & Htruthy & ->)];
      [done|].
    rewrite Hmode. unfold isOAuth, refreshed, set_tokens. cbn [_accessToken].
    rewrite (Hcarry _ _ _ _ _ Hreply eq_refl Hs Hres Htruthy). reflexivity. }
  assert (Hin2 : forall fn' p', Sent fn' p' ∈ (Sent request_post (refresh_params (this st)) :: evs2) ->
            p' = refresh_params (this st)).
  { intros fn' p' Hin. apply elem_of_cons in Hin as [[= _ ->]|Hin]; [done|].
    by apply Hnosent in Hin. }
  unfold bind at 1. rewrite Hrun2.
  destruct r2 as [res|e|e].
  2,3: do 2 eexists; exists (Sent request_post (refresh_params (this st)) :: evs2);
       split; [reflexivity|];
       split; [by rewrite Htrace2, <- app_assoc|];
       split; [intros fn' p' Hin; left; by eapply Hin2|];
       split; [intros l Hl Hlen; rewrite Hheap2; by apply lookup_app_l|done].
  destruct (truthy res).
  2: { do 2 eexists. exists (Sent request_post (refresh_params (this st)) :: evs2).
       split; [reflexivity|].
       split; [by rewrite Htrace2, <- app_assoc|].
       split; [intros fn' p' Hin; left; by eapply Hin2|].
       split; [intros l Hl Hlen; rewrite Hheap2; by apply lookup_app_l|done]. }
  cbv [bind gets].
  erewrite assign_run by (rewrite Hheap2, lookup_app_l by done; exact Hp).
  erewrite send_run; cycle 1.
  { cbn [heap set_heap]. apply list_lookup_insert_eq. rewrite Hheap2, length_app. lia. }
  do 2 eexists.
  exists (Sent request_post (refresh_params (this st)) :: evs2
            ++ [Sent fn (retry_params p (this st2))]).
  split; [reflexivity|].
  cbn [trace heap this record set_heap].
  split; [rewrite Htrace2, <- !app_assoc; reflexivity|].
  split.
  { intros fn' p' Hin. rewrite app_comm_cons in Hin.
    apply elem_of_app in Hin as [Hin|Hin]; [left; by eapply Hin2|].
    apply list_elem_of_singleton in Hin as [= _ ->]. right. by eexists. }
  split; [|done].
  intros l Hl Hlen. rewrite list_lookup_insert_ne by done.
  rewrite Hheap2. by apply lookup_app_l.
Qed.


(** A request built by [getRequestParams] and then dispatched: the shape
    of [httpGet], [httpPost], [httpPut] and [httpDelete]. *)
Lemma dispatch_effect method fn path body refresh st :
  exists r st' evs,
    (params <- getRequestParams E method path body ;;
     httpRequest E fn params refresh) st = (r, st') /\
    trace st' = trace st ++ evs /\
    (forall fn' p', Sent fn' p' ∈ evs ->
       url_is token_url p' = true \/
       (field "url" p' = Some (VStr (COINBASE_API +:+ path)) /\
        (has_entries body = true -> field "body" p' = Some body))) /\
    (forall l, (l < length (heap st))%nat -> heap st' !! l = heap st !! l) /\
    (refresh_carries_token E -> isOAuth (this st') = isOAuth (this st)).
Proof.
  destruct (getRequestParams_effect method path body st)
    as (r1 & st1 & o & Hrun1 & Hthis1 & Htrace1 & Hheap1 & Hr1).
  unfold bind. rewrite Hrun1.
  destruct r1 as [params|e|e]; [|clear Hr1|done].
  2: { do 2 eexists. exists []. split; [reflexivity|].
       split; [by rewrite app_nil_r|].
       split; [intros ? ? H; by apply elem_of_nil in H|].
       split; [intros l Hl; rewrite Hheap1; by apply lookup_app_l|].
       by rewrite Hthis1. }
  destruct Hr1 as (-> & Hurl & Hbody).
  assert (Hp : heap st1 !! length (heap st) = Some o)
    by (rewrite Hheap1; apply lookup_fresh).
  destruct (httpRequest_effect fn _ refresh st1 o Hp)
    as (r & st' & evs & Hrun & Htrace & Hsent & Hframe & Hmode).
  rewrite Hrun. do 2 eexists. exists (Sent fn o :: evs).
  split; [reflexivity|].
  split; [by rewrite Htrace, Htrace1|].
  split.
  { intros fn' p' Hin. apply elem_of_cons in Hin as [[= _ ->]|Hin]; [by right|].
    apply Hsent in Hin as [->|[c' ->]]; [by left|right].
    rewrite !field_retry_params by done. done. }
  split.
  { intros l Hl. rewrite Hframe.
    - rewrite Hheap1. by apply lookup_app_l.
    - lia.
    - rewrite Hheap1, length_app. lia. }
  intros Hcarry. by rewrite Hmode, Hthis1.
Qed.



(** C9, as the code has it: whatever the credentials, every request that
    [revokeToken] sends to the revoke endpoint has the body
    [{token: undefined}], which is serialized as the empty object: the
    stored access token is not in the body.  In OAuth mode the first of
    these requests still carries that token, as its bearer credential. *)
Theorem revoke_body_has_no_token st :
  JSON_stringify (VObj [("token", VUndef)]) = Some "{}" /\
  (exists evs,
     trace (snd (revokeToken E st)) = trace st ++ evs /\
     forall fn p, Sent fn p ∈ evs -> url_is revoke_url p = true ->
       field "body" p = Some (VObj [("token", VUndef)])) /\
  (isOAuth (this st) = true ->
   exists evs,
     trace (snd (revokeToken E st)) =
       trace st ++
         Sent request_post
           [("url", VStr revoke_url); ("json", VBool true); ("headers", default_headers);
            ("auth", VObj [("bearer", _accessToken (this st))]);
            ("body", VObj [("token", VUndef)])] :: evs).
Proof.
  split; [reflexivity|]. split.
  - unfold revokeToken, httpPost. cbv [bind gets]. cbn [getThis String.eqb Ascii.eqb Bool.eqb].
    destruct (dispatch_effect "POST" request_post "/oauth/revoke"
                (VObj [("token", VUndef)]) true st)
      as (r & st' & evs & Hrun & Htrace & Hsent & _).
    unfold bind in Hrun. rewrite Hrun. exists evs. split; [done|].
    intros fn p Hin Hurl. apply Hsent in Hin as [Htok|[_ Hbody]].
    + exfalso. unfold url_is in *. destruct (field "url" p) as [[]|]; try discriminate.
      apply String.eqb_eq in Htok as ->. discriminate.
    + by apply Hbody.
  - intros Hmode. unfold revokeToken, httpPost. cbv [bind gets].
    cbn [getThis String.eqb Ascii.eqb Bool.eqb].
    rewrite getRequestParams_oauth by done.
    destruct (httpRequest_effect request_post (length (heap st)) true
                (set_heap (heap st ++ [oauth_params (this st) "/oauth/revoke"
                                         (VObj [("token", VUndef)])]) st)
                _ (lookup_fresh _ _))
      as (r & st' & evs & -> & Htrace & _).
    exists evs. exact Htrace.
Qed.

Lemma merge_type kind o :
  merge_all o [VObj [("type", VStr kind)]] = set_field "type" (VStr kind) o.
Proof.
  unfold merge_all. cbn. by destruct (field "type" o) as [[]|].
Qed.

Lemma field_set_field_eq k v o : field k (set_field k v o) = Some v.
Proof.
  induction o as [|[k0 v0] o IH]; cbn.
  - by rewrite String.eqb_refl.
  - destruct (String.eqb k k0) eqn:Hk; cbn.
    + by rewrite String.eqb_refl.
    + by rewrite Hk.
Qed.

Lemma money_endpoint_effect kind path l o st :
  heap st !! l = Some o ->
  heap (snd ((body <- assign_params (Some l) [("type", VStr kind)] ;;
              httpPost E path body true) st)) !! l
    = Some (set_field "type" (VStr kind) o).
Proof.
  intros Hl.
  assert (Hlt : (l < length (heap st))%nat) by (eapply lookup_lt_Some; eauto).
  unfold assign_params. cbv [bind gets ret]. erewrite assign_run by done.
  rewrite merge_type. cbn [heap set_heap].
  rewrite list_lookup_insert_eq by done. cbn [from_option id].
  unfold httpPost.
  destruct (dispatch_effect "POST" request_post path
              (VObj (set_field "type" (VStr kind) o)) true
              (set_heap (<[l:=set_field "type" (VStr kind) o]> (heap st)) st))
    as (r & st' & evs & Hrun & _ & _ & Hframe & _).
  rewrite Hrun. cbn [snd].
  rewrite Hframe by (cbn [heap set_heap]; by rewrite length_insert).
  cbn [heap set_heap]. by apply list_lookup_insert_eq.
Qed.

(** C10: [sendMoney], [transferMoney] and [requestMoney] write into the
    object the caller passed: after the call that very object has its
    [type] set to "send", "transfer" or "request", over any [type] it had,
    and its other properties as before. *)
Theorem money_endpoints_mutate_params accountId l o st :
  heap st !! l = Some o ->
  let after (call : string -> option loc -> M value) : option object :=
    heap (snd (call accountId (Some l) st)) !! l in
  after (sendMoney E) = Some (set_field "type" (VStr "send") o) /\
  after (transferMoney E) = Some (set_field "type" (VStr "transfer") o) /\
  after (requestMoney E) = Some (set_field "type" (VStr "request") o) /\
  forall kind,
    field "type" (set_field "type" (VStr kind) o) = Some (VStr kind) /\
    forall k, k <> "type" -> field k (set_field "type" (VStr kind) o) = field k o.
Proof.
  intros Hl after. unfold after, sendMoney, transferMoney, requestMoney.
  repeat split; try (by apply money_endpoint_effect).
  - apply field_set_field_eq.
  - intros k Hk. by apply field_set_field_ne.
Qed.

End Runs.

(** ** The claims on scripted runs *)


Lemma envelope_unwrapping_witness :
  fst (httpRequest E_enveloped request_get 0%nat true (with_user_request api_client)) =
    Return (VObj [("a", VNum 1)]).
Proof.
  destruct (envelope_unwrapping E_enveloped request_get 0%nat true
              (with_user_request api_client)
              (oauth_params api_client "/v2/user" VUndef)
              200 (VObj [("data", VObj [("a", VNum 1)])]))
    as (Hdata & _ & _); [reflexivity..|].
  exact (Hdata _ _ eq_refl eq_refl eq_refl).
Defined.

(** C2 as stated fails: a body whose [data] is 0 comes back whole. *)
Lemma falsy_data_counterexample :
  field "data" [("data", VNum 0)] = Some (VNum 0) /\
  respond E_zero [] request_get (oauth_params api_client "/v2/user" VUndef) =
    answer 200 (VObj [("data", VNum 0)]) /\
  fst (httpRequest E_zero request_get 0%nat true (with_user_request api_client)) =
    Return (VObj [("data", VNum 0)]) /\
  fst (httpRequest E_zero request_get 0%nat true (with_user_request api_client)) <>
    Return (VNum 0).
Proof. repeat split. discriminate. Qed.

Lemma refresh_false_is_terminal_witness :
  httpRequest E_refresh request_get 0%nat false (with_user_request oauth_client) =
    (Throw (ExpiredTokenError
              (default "" (JSON_stringify
                 (VObj [("errors", VArr [VObj [("id", VStr "expired_token")]])])))),
     record (Sent request_get (oauth_params oauth_client "/v2/user" VUndef))
       (with_user_request oauth_client)).
Proof.
  destruct (refresh_false_is_terminal E_refresh) as (Hterminal & _ & _).
  apply (Hterminal request_get 0%nat (with_user_request oauth_client)
           (oauth_params oauth_client "/v2/user" VUndef)
           (VObj [("errors", VArr [VObj [("id", VStr "expired_token")]])]));
    reflexivity.
Defined.

(** C3 as stated fails: a 401 on the revoke call starts a refresh, which a
    call dispatched with [refresh = false] would not. *)
Lemma revoke_refreshes_counterexample :
  refresh_calls (trace (snd (revokeToken E_refresh (idle oauth_client)))) = 1%nat /\
  refresh_calls
    (trace (snd (httpPost E_refresh "/oauth/revoke" (VObj [("token", VUndef)]) false
                   (idle oauth_client)))) = 0%nat.
Proof. split; reflexivity. Qed.

Lemma second_401_is_terminal_witness :
  exists st',
    httpRequest E_still_expired request_get 0%nat true (with_user_request oauth_client) =
      (Throw (ExpiredTokenError "{}"), st') /\
    requests_sent (trace st') = 3%nat /\
    refresh_calls (trace st') = 1%nat.
Proof.
  destruct (second_401_is_terminal E_still_expired request_get 0%nat
              (with_user_request oauth_client)
              (oauth_params oauth_client "/v2/user" VUndef)
              (VObj [("errors", VArr [VObj [("id", VStr "expired_token")]])])
              200 new_tokens new_tokens (VObj []))
    as (st' & Hrun & Htr & Hsent & Hcalls); [reflexivity..|].
  exists st'. rewrite Htr. split; [exact Hrun|]. split; [exact Hsent|].
  exact (Hcalls eq_refl).
Defined.

(** C4 as stated fails: the refresh succeeds with a result that has no
    [access_token], the retried request is answered 401, and the caller
    gets an ordinary HTTP error, not the expired-token error. *)
Lemma second_401_plain_error_counterexample :
  respond E_tokenless_still_expired [] request_get
    (oauth_params oauth_client "/v2/user" VUndef) = unauthorized /\
  respond E_tokenless_still_expired
    [Sent request_get (oauth_params oauth_client "/v2/user" VUndef)]
    request_post (refresh_params oauth_client) =
    answer 200 (VObj [("token_type", VStr "bearer")]) /\
  fst (httpRequest E_tokenless_still_expired request_get 0%nat true
         (with_user_request oauth_client)) = Throw (Error "HTTP error 401 {}") /\
  instanceof_ExpiredTokenError (Error "HTTP error 401 {}") = false /\
  refresh_calls
    (trace (snd (httpRequest E_tokenless_still_expired request_get 0%nat true
                   (with_user_request oauth_client)))) = 1%nat.
Proof. repeat split. Qed.

(** C5: the refresh resolves with [false]; the 401 is lost and the caller
    gets [undefined]. *)
Theorem falsy_refresh_resolves_undefined :
  respond E_falsy_refresh [] request_get (oauth_params oauth_client "/v2/user" VUndef) =
    unauthorized /\
  respond E_falsy_refresh
    [Sent request_get (oauth_params oauth_client "/v2/user" VUndef)]
    request_post (refresh_params oauth_client) = answer 200 (VBool false) /\
  fst (httpRequest E_falsy_refresh request_get 0%nat true
         (with_user_request oauth_client)) = Return VUndef.
Proof. repeat split. Qed.

Lemma api_key_signature_witness :
  let q := String "034"%char EmptyString in
  exists params st' p,
    getRequestParams E_refresh "POST" "/v2/accounts"
      (VObj [("name", VStr "savings"); ("rate", VReal "0.5")]) (idle api_client) =
      (Return params, st') /\
    heap st' !! params = Some p /\
    header p "CB-ACCESS-SIGN" =
      VStr (createHmac_sha256_hex E_refresh "secret"
              ("1700000000POST/v2/accounts{" +:+ q +:+ "name" +:+ q +:+ ":" +:+
               q +:+ "savings" +:+ q +:+ "," +:+ q +:+ "rate" +:+ q +:+ ":0.5}")) /\
    header p "CB-ACCESS-TIMESTAMP" = VNum 1700000000.
Proof.
  intros q.
  destruct (api_key_signature E_refresh "POST" "/v2/accounts"
              (VObj [("name", VStr "savings"); ("rate", VReal "0.5")])
              ("{" +:+ q +:+ "name" +:+ q +:+ ":" +:+
               q +:+ "savings" +:+ q +:+ "," +:+ q +:+ "rate" +:+ q +:+ ":0.5}")
              (idle api_client) "secret") as [Hsigned _]; [reflexivity..|].
  exact Hsigned.
Defined.




Lemma handler_error_aborts_retry_witness :
  exists st',
    httpRequest E_refresh request_get 0%nat true st_failing_handler =
      (Throw (External "database is down"), st') /\
    requests_sent (trace st') = 2%nat.
Proof.
  destruct (handler_error_aborts_retry E_refresh request_get 0%nat st_failing_handler
              (oauth_params (this st_failing_handler) "/v2/user" VUndef)
              (VObj [("errors", VArr [VObj [("id", VStr "expired_token")]])])
              200 new_tokens new_tokens
              (fun _ => Some (External "database is down"))
              (External "database is down"))
    as (st' & Hrun & Htr & Hsent); [reflexivity..|].
  exists st'. rewrite Htr. split; assumption.
Defined.

Lemma revoke_body_has_no_token_witness :
  exists evs,
    trace (snd (revokeToken E_refresh (idle oauth_client))) =
      Sent request_post
        [("url", VStr revoke_url); ("json", VBool true); ("headers", default_headers);
         ("auth", VObj [("bearer", VStr "old")]);
         ("body", VObj [("token", VUndef)])] :: evs.
Proof.
  destruct (revoke_body_has_no_token E_refresh (idle oauth_client)) as (_ & _ & Hfirst).
  exact (Hfirst eq_refl).
Defined.

(** C9 as stated fails: in OAuth mode the revoke request carries the stored
    access token, as its bearer credential. *)
Lemma revoke_sends_bearer_counterexample :
  _accessToken oauth_client = VStr "old" /\
  exists p rest,
    trace (snd (revokeToken E_refresh (idle oauth_client))) = Sent request_post p :: rest /\
    url_is revoke_url p = true /\
    field "auth" p = Some (VObj [("bearer", VStr "old")]).
Proof. split; [reflexivity|]. do 2 eexists. repeat split. Qed.

Lemma money_endpoints_mutate_params_witness :
  heap (snd (sendMoney E_refresh "primary" (Some 0%nat)
               (with_caller_object api_client
                  [("to", VStr "bob"); ("type", VStr "gift"); ("amount", VNum 5)])))
    !! 0%nat
  = Some [("to", VStr "bob"); ("type", VStr "send"); ("amount", VNum 5)].
Proof.
  destruct (money_endpoints_mutate_params E_refresh "primary" 0%nat
              [("to", VStr "bob"); ("type", VStr "gift"); ("amount", VNum 5)]
              (with_caller_object api_client
                 [("to", VStr "bob"); ("type", VStr "gift"); ("amount", VNum 5)])
              eq_refl) as (Hsend & _).
  exact Hsend.
Defined.

(** * More of the client *)

Section More.
Context (E : Env).

(** *** Requests that end after one exchange *)

Lemma httpRequest_no_refresh fn params refresh st p :
  heap st !! params = Some p ->
  (forall err, send_callback (this st) (respond E (trace st) fn p) = Throw err ->
     instanceof_ExpiredTokenError err && refresh = false) ->
  httpRequest E fn params refresh st =
    (send_callback (this st) (respond E (trace st) fn p), record (Sent fn p) st).
Proof.
  intros Hp Hno. unfold httpRequest, httpRequest_with, try_catch.
  rewrite (send_run _ _ _ _ _ Hp).
  destruct (send_callback _ _) as [v|err|err] eqn:Hcb; try reflexivity.
  by rewrite (Hno err eq_refl).
Qed.

(** X1: a client in API key mode sends one request and no more, whatever
    the answer and whatever [refresh] says: a 401 is an ordinary HTTP
    error, the refresh endpoint is not called and the client is as it
    was. *)
Theorem api_key_mode_single_request fn params refresh st p :
  isOAuth (this st) = false ->
  heap st !! params = Some p ->
  httpRequest E fn params refresh st =
    (send_callback (this st) (respond E (trace st) fn p), record (Sent fn p) st) /\
  forall b,
    respond E (trace st) fn p = Answered {| statusCode := 401; body := b |} ->
    fst (httpRequest E fn params refresh st) =
      Throw (Error ("HTTP error 401 " +:+ default "undefined" (JSON_stringify b))).
Proof.
  intros Hmode Hp.
  assert (Hrun : httpRequest E fn params refresh st =
            (send_callback (this st) (respond E (trace st) fn p), record (Sent fn p) st)).
  { apply httpRequest_no_refresh; [done|]. intros err Hcb.
    destruct (instanceof_ExpiredTokenError err) eqn:Hexp; [|done].
    pose proof (send_callback_expired_inv _ _ _ Hcb Hexp). congruence. }
  split; [done|].
  intros b Hreply. rewrite Hrun, Hreply. unfold send_callback. by rewrite Hmode.
Qed.

(** X2: an error of the transport reaches the caller as it is, after that
    one request: there is no retry and no refresh, in either mode. *)
Theorem transport_error_is_terminal fn params refresh st p description :
  heap st !! params = Some p ->
  respond E (trace st) fn p = Failed description ->
  httpRequest E fn params refresh st =
    (Throw (External description), record (Sent fn p) st).
Proof.
  intros Hp Hreply. rewrite (httpRequest_no_refresh _ _ _ _ _ Hp).
  - by rewrite Hreply.
  - rewrite Hreply. by intros err [= <-].
Qed.

(** X3: an answer with a status of 300 or more that is not a 401 in OAuth
    mode ends the request with an error that names the status and carries
    the body as JSON text; no refresh is tried, even in OAuth mode. *)
Theorem http_error_is_terminal fn params refresh st p s b :
  heap st !! params = Some p ->
  respond E (trace st) fn p = Answered {| statusCode := s; body := b |} ->
  300 <= s ->
  isOAuth (this st) = false \/ s <> 401 ->
  httpRequest E fn params refresh st =
    (Throw (Error ("HTTP error " +:+ pretty s +:+ " " +:+
                   default "undefined" (JSON_stringify b))),
     record (Sent fn p) st).
Proof.
  intros Hp Hreply Hs Hnot.
  assert (Hcb : send_callback (this st) (respond E (trace st) fn p) =
            Throw (Error ("HTTP error " +:+ pretty s +:+ " " +:+
                          default "undefined" (JSON_stringify b)))).
  { rewrite Hreply. unfold send_callback. cbn [statusCode body].
    replace (isOAuth (this st) && (s =? 401)) with false.
    - by replace (300 <=? s) with true by lia.
    - destruct Hnot as [->|Hne]; [done|].
      replace (s =? 401) with false by lia. by rewrite andb_false_r. }
  rewrite (httpRequest_no_refresh _ _ _ _ _ Hp); rewrite Hcb; [done|].
  by intros err [= <-].
Qed.

(** X4: when the refresh request itself fails (an error of the transport, or
    a status of 300 or more), that failure is what the caller gets: the
    stored tokens stay, no handler is called and the original request is
    not sent again. *)
Theorem refresh_failure_propagates fn params st p b1 :
  isOAuth (this st) = true ->
  heap st !! params = Some p ->
  respond E (trace st) fn p = Answered {| statusCode := 401; body := b1 |} ->
  let reply2 :=
    respond E (trace st ++ [Sent fn p]) request_post (refresh_params (this st)) in
  let st' := after_refresh_request (record (Sent fn p) st) in
  this st' = this st /\
  trace st' = trace st ++ [Sent fn p; Sent request_post (refresh_params (this st))] /\
  (forall description,
     reply2 = Failed description ->
     httpRequest E fn params true st = (Throw (External description), st')) /\
  (forall s2 b2,
     reply2 = Answered {| statusCode := s2; body := b2 |} ->
     300 <= s2 ->
     httpRequest E fn params true st =
       (Throw (if s2 =? 401
               then ExpiredTokenError (default "" (JSON_stringify b2))
               else Error ("HTTP error " +:+ pretty s2 +:+ " " +:+
                           default "undefined" (JSON_stringify b2))),
        st')).
Proof.
  intros Hmode Hp H1 reply2 st'.
  assert (Hrun : forall e,
            send_callback (this st) reply2 = Throw e ->
            httpRequest E fn params true st = (Throw e, st')).
  { intros e He. unfold httpRequest, httpRequest_with, try_catch.
    rewrite (send_run _ _ _ _ _ Hp), H1, send_callback_expired by done.
    cbn [instanceof_ExpiredTokenError andb].
    unfold bind at 1. rewrite refreshToken_oauth by done.
    cbn [this trace record]. fold reply2. by rewrite He. }
  split; [reflexivity|]. split.
  { unfold st'. cbn [trace after_refresh_request record set_heap this].
    by rewrite <- app_assoc. }
  split.
  - intros d Hd. apply Hrun. by rewrite Hd.
  - intros s2 b2 H2 Hs2. apply Hrun. rewrite H2. unfold send_callback.
    cbn [statusCode body]. rewrite Hmode. cbn [andb].
    destruct (s2 =? 401); [done|]. by replace (300 <=? s2) with true by lia.
Qed.

(** X5: the retry step [assign(params, this.getOAuthHeaders())] turns the
    [params] of an OAuth request into the same [params] with the stored
    token (one that is not itself an object) as bearer token: address,
    headers and body stay.  When the client is still in OAuth mode, these
    are exactly the [params] that [getRequestParams] builds anew. *)
Theorem retry_is_rebuilt_request method path body c l st' :
  heap st' !! l = Some (oauth_params c path body) ->
  isObject (_accessToken (this st')) = false ->
  (exists st'',
     (headers <- gets (fun st => getOAuthHeaders (this st)) ;;
      assign l [headers]) st' = (Return l, st'') /\
     this st'' = this st' /\
     heap st'' !! l = Some (oauth_params (this st') path body)) /\
  (isOAuth (this st') = true ->
   getRequestParams E method path body st' =
     (Return (length (heap st')),
      set_heap (heap st' ++ [oauth_params (this st') path body]) st')).
Proof.
  intros Hl Htoken.
  assert (Hlt : (l < length (heap st'))%nat) by (eapply lookup_lt_Some; eauto).
  assert (Hmerge : merge_all (oauth_params c path body) [getOAuthHeaders (this st')] =
            oauth_params (this st') path body).
  { unfold oauth_params, merge_all, getOAuthHeaders.
    destruct (has_entries body); cbn;
      destruct (_accessToken c); destruct (_accessToken (this st'));
      try discriminate; reflexivity. }
  split.
  - cbv [bind gets]. erewrite assign_run by exact Hl. rewrite Hmerge.
    eexists. split; [reflexivity|]. split; [reflexivity|].
    cbn [heap set_heap]. by apply list_lookup_insert_eq.
  - intros Hmode. by apply getRequestParams_oauth.
Qed.

(** *** The shape of every run *)

Lemma refreshToken_shape st :
  isOAuth (this st) = true ->
  exists r st',
    refreshToken E st = (r, st') /\
    heap st' = heap st ++ [refresh_params (this st)] /\
    ((this st' = this st /\
      trace st' = trace st ++ [Sent request_post (refresh_params (this st))] /\
      (forall res, r = Return res -> truthy res = false)) \/
     (exists res,
        truthy res = true /\
        this st' = refreshed res (this st) /\
        trace st' = trace st ++ Sent request_post (refresh_params (this st))
                      :: notifications "didRefreshToken" (this st) res /\
        (r = Return res \/ exists e, r = Throw e))).
Proof.
  intros Hmode. rewrite refreshToken_oauth by done. cbn zeta.
  destruct (send_callback _ _) as [res|e|e].
  2,3: do 2 eexists; split; [reflexivity|]; split; [reflexivity|]; left;
       repeat split; intros res'; discriminate.
  destruct (truthy res) eqn:Htruthy.
  2: { do 2 eexists. split; [reflexivity|]. split; [reflexivity|]. left.
       repeat split. by intros res' [= <-]. }
  unfold bind. rewrite emit_run. cbn [this set_this].
  exists (match handler_outcome "didRefreshToken" (refreshed res (this st)) res with
          | None => Return res | Some e => Throw e end).
  eexists. split; [by destruct (handler_outcome _ _ _)|].
  split; [reflexivity|]. right. exists res.
  cbn [heap trace this record_all set_this after_refresh_request record set_heap].
  split; [done|]. split; [done|]. split; [by rewrite <- app_assoc|].
  destruct (handler_outcome _ _ _); eauto.
Qed.

Lemma httpRequest_shape fn params refresh st p :
  heap st !! params = Some p ->
  exists r st' evs,
    httpRequest E fn params refresh st = (r, st') /\
    trace st' = trace st ++ Sent fn p :: evs /\
    ((evs = [] /\ this st' = this st) \/
     (evs = [Sent request_post (refresh_params (this st))] /\ this st' = this st) \/
     (exists res tail,
        truthy res = true /\
        this st' = refreshed res (this st) /\
        evs = Sent request_post (refresh_params (this st))
                :: notifications "didRefreshToken" (this st) res ++ tail /\
        (tail = [] \/ tail = [Sent fn (retry_params p (this st'))]))).
Proof.
  intros Hp.
  assert (Hlt : (params < length (heap st))%nat) by (eapply lookup_lt_Some; eauto).
  unfold httpRequest, httpRequest_with, try_catch.
  rewrite (send_run _ _ _ _ _ Hp).
  destruct (send_callback _ _) as [v|err|err] eqn:Hcb.
  1,3: do 2 eexists; exists []; split; [reflexivity|]; split; [reflexivity|]; by left.
  destruct (instanceof_ExpiredTokenError err && refresh) eqn:Hretry.
  2: { do 2 eexists. exists []. split; [reflexivity|]. split; [reflexivity|]. by left. }
  apply andb_true_iff in Hretry as [Hexp _].
  pose proof (send_callback_expired_inv _ _ _ Hcb Hexp) as Hmode.
  destruct (refreshToken_shape (record (Sent fn p) st) Hmode)
    as (r2 & st2 & Hrun2 & Hheap2 & Hcases).
  cbn [this heap trace record] in *.
  unfold bind at 1. rewrite Hrun2.
  destruct Hcases as [(Hthis & Htrace & Hfalsy)
                     |(res & Htruthy & Hthis & Htrace & Hr2)].
  - exists (match r2 with Return _ => Return VUndef | other => other end), st2.
    exists [Sent request_post (refresh_params (this st))].
    split.
    { destruct r2 as [res|e|e]; try reflexivity. by rewrite (Hfalsy res eq_refl). }
    split; [by rewrite Htrace, <- app_assoc|]. right. by left.
  - destruct Hr2 as [->|[e ->]].
    + rewrite Htruthy. cbv [bind gets].
      erewrite assign_run by (rewrite Hheap2, lookup_app_l by done; exact Hp).
      erewrite send_run; cycle 1.
      { cbn [heap set_heap]. apply list_lookup_insert_eq.
        rewrite Hheap2, length_app. lia. }
      do 3 eexists. split; [reflexivity|].
      cbn [trace heap this record set_heap].
      split; [rewrite Htrace, <- !app_assoc; reflexivity|].
      right. right. exists res. eexists. repeat split; [done..|].
      right. reflexivity.
    + do 3 eexists. split; [reflexivity|].
      split; [rewrite Htrace, <- !app_assoc; reflexivity|].
      right. right. exists res, []. rewrite app_nil_r. repeat split; [done..|]. by left.
Qed.

Lemma is_refresh_call_refresh c :
  is_refresh_call (Sent request_post (refresh_params c)) = true.
Proof. reflexivity. Qed.

Lemma httpRequest_counts fn params refresh st p :
  heap st !! params = Some p ->
  exists evs,
    trace (snd (httpRequest E fn params refresh st)) = trace st ++ evs /\
    (requests_sent evs <= 3)%nat /\
    (length (handler_calls "didRefreshToken" evs) <= 1)%nat /\
    (is_refresh_call (Sent fn p) = false -> (refresh_calls evs <= 1)%nat).
Proof.
  intros Hp.
  destruct (httpRequest_shape fn params refresh st p Hp)
    as (r & st' & evs & -> & Htrace & Hcases).
  exists (Sent fn p :: evs). split; [done|].
  destruct Hcases as [[-> _]|[[-> _]|(res & tail & _ & _ & -> & Htail)]].
  - split; [cbn; lia|]. split; [cbn; lia|].
    intros Hnot. unfold refresh_calls. cbn [List.filter]. rewrite Hnot. cbn. lia.
  - split; [cbn; lia|]. split; [cbn; lia|].
    intros Hnot. unfold refresh_calls. cbn [List.filter].
    rewrite Hnot, is_refresh_call_refresh. cbn [length]. lia.
  - unfold notifications.
    destruct Htail as [->| ->]; destruct (Map_get _ _); cbn [app];
      (split; [cbn; lia|]); (split; [cbn; lia|]);
      intros Hnot; unfold refresh_calls; cbn [List.filter];
      rewrite ?is_refresh_call_retry, Hnot, is_refresh_call_refresh;
      cbn [is_refresh_call length]; lia.
Qed.

(** X6: a request never loops.  Whatever the transport answers, one call of
    [httpRequest] hands it at most three requests (the original, one
    refresh, one retry), calls the [didRefreshToken] handler at most once,
    and, unless it is itself addressed to the token endpoint, calls that
    endpoint at most once. *)
Theorem request_bound fn params refresh st p :
  heap st !! params = Some p ->
  exists evs,
    trace (snd (httpRequest E fn params refresh st)) = trace st ++ evs /\
    (requests_sent evs <= 3)%nat /\
    (length (handler_calls "didRefreshToken" evs) <= 1)%nat /\
    (is_refresh_call (Sent fn p) = false -> (refresh_calls evs <= 1)%nat).
Proof. apply httpRequest_counts. Qed.

Lemma send_callback_expired_only_401 c r err :
  send_callback c r = Throw err ->
  instanceof_ExpiredTokenError err = true ->
  exists b, r = Answered {| statusCode := 401; body := b |}.
Proof.
  unfold send_callback. destruct r as [d|[s b]].
  - by intros [= <-].
  - cbn [statusCode body]. destruct (isOAuth c); cbn [andb].
    + destruct (s =? 401) eqn:Hs.
      * intros _ _. exists b. f_equal. f_equal. lia.
      * destruct (300 <=? s); [by intros [= <-]|by destruct (unwrap b)].
    + destruct (300 <=? s); [by intros [= <-]|by destruct (unwrap b)].
Qed.

(** The client after a request: as before, or with the tokens of the
    refresh result that the token endpoint answered in this very run. *)
Lemma httpRequest_client fn params refresh st p :
  heap st !! params = Some p ->
  exists r st',
    httpRequest E fn params refresh st = (r, st') /\
    (this st' = this st \/
     exists b1 s b res,
       refresh = true /\ isOAuth (this st) = true /\
       respond E (trace st) fn p = Answered {| statusCode := 401; body := b1 |} /\
       respond E (trace st ++ [Sent fn p]) request_post (refresh_params (this st)) =
         Answered {| statusCode := s; body := b |} /\
       s < 300 /\ unwrap b = Some res /\ truthy res = true /\
       this st' = refreshed res (this st)).
Proof.
  intros Hp.
  assert (Hlt : (params < length (heap st))%nat) by (eapply lookup_lt_Some; eauto).
  unfold httpRequest, httpRequest_with, try_catch.
  rewrite (send_run _ _ _ _ _ Hp).
  destruct (send_callback _ _) as [v|err|err] eqn:Hcb.
  1,3: do 2 eexists; split; [reflexivity|by left].
  destruct (instanceof_ExpiredTokenError err && refresh) eqn:Hretry.
  2: { do 2 eexists. split; [reflexivity|by left]. }
  apply andb_true_iff in Hretry as [Hexp ->].
  pose proof (send_callback_expired_inv _ _ _ Hcb Hexp) as Hmode.
  destruct (send_callback_expired_only_401 _ _ _ Hcb Hexp) as [b1 H1].
  destruct (refreshToken_effect E (record (Sent fn p) st) Hmode)
    as (r2 & st2 & evs2 & Hrun2 & Hheap2 & _ & _ & Hthis2).
  cbn [this heap trace record] in *.
  assert (Hend : this st2 = this st \/
            exists b1 s b res,
              true = true /\ isOAuth (this st) = true /\
              respond E (trace st) fn p = Answered {| statusCode := 401; body := b1 |} /\
              respond E (trace st ++ [Sent fn p]) request_post (refresh_params (this st)) =
                Answered {| statusCode := s; body := b |} /\
              s < 300 /\ unwrap b = Some res /\ truthy res = true /\
              this st2 = refreshed res (this st)).
  { destruct Hthis2 as [->|(s & b & res & Hreply & Hs & Hres & Htruthy & ->)];
      [by left|right].
    exists b1, s, b, res. repeat split; done. }
  unfold bind at 1. rewrite Hrun2.
  destruct r2 as [res|e|e].
  2,3: do 2 eexists; split; [reflexivity|exact Hend].
  destruct (truthy res).
  2: { do 2 eexists. split; [reflexivity|exact Hend]. }
  cbv [bind gets].
  erewrite assign_run by (rewrite Hheap2, lookup_app_l by done; exact Hp).
  erewrite send_run; cycle 1.
  { cbn [heap set_heap]. apply list_lookup_insert_eq. rewrite Hheap2, length_app. lia. }
  do 2 eexists. split; [reflexivity|exact Hend].
Qed.

(** X7: a request leaves the key pair, the client id and secret and the
    registered handlers as they were.  The two tokens either both stay, or
    are both replaced by the [access_token] and [refresh_token] of the
    truthy result that the token endpoint answered, with a status below
    300, to the refresh of this request, which then was dispatched with
    [refresh = true] by a client in OAuth mode and first answered 401. *)
Theorem request_changes_only_tokens fn params refresh st p :
  heap st !! params = Some p ->
  let c := this st in
  let c' := this (snd (httpRequest E fn params refresh st)) in
  _apiKey c' = _apiKey c /\ _apiSecret c' = _apiSecret c /\
  _clientId c' = _clientId c /\ _clientSecret c' = _clientSecret c /\
  _events c' = _events c /\
  ((_accessToken c' = _accessToken c /\ _refreshToken c' = _refreshToken c) \/
   exists b1 s b res,
     refresh = true /\ isOAuth c = true /\
     respond E (trace st) fn p = Answered {| statusCode := 401; body := b1 |} /\
     respond E (trace st ++ [Sent fn p]) request_post (refresh_params c) =
       Answered {| statusCode := s; body := b |} /\
     s < 300 /\ unwrap b = Some res /\ truthy res = true /\
     _accessToken c' = prop res "access_token" /\
     _refreshToken c' = prop res "refresh_token").
Proof.
  intros Hp c c'. unfold c, c'.
  destruct (httpRequest_client fn params refresh st p Hp)
    as (r & st' & -> & Hclient). cbn [snd].
  destruct Hclient
    as [->|(b1 & s & b & res & Hrefresh & Hmode & H1 & H2 & Hs & Hres & Htruthy & ->)].
  - repeat split; by left.
  - repeat split. right. exists b1, s, b, res. repeat split; done.
Qed.

(** *** What [getRequestParams] builds *)

Lemma getRequestParams_returns method path body st l st' :
  getRequestParams E method path body st = (Return l, st') ->
  (isOAuth (this st) = true /\ l = length (heap st) /\
   st' = set_heap (heap st ++ [oauth_params (this st) path body]) st) \/
  (exists secret,
     isOAuth (this st) = false /\ _apiSecret (this st) = VStr secret /\
     getRequestParams E method path body st = (Return l, st')).
Proof.
  intros Hrun. destruct (isOAuth (this st)) eqn:Hmode.
  - rewrite getRequestParams_oauth in Hrun by done. injection Hrun as <- <-. by left.
  - destruct (_apiSecret (this st)) as [| | | |secret| | |] eqn:Hsecret.
    5: { right. by exists secret. }
    all: rewrite getRequestParams_api_throws in Hrun by (done || (intros ?; congruence));
      discriminate.
Qed.

(** X8: whatever the mode, the [params] that [getRequestParams] builds
    point at the API host followed by the path, ask for JSON and keep the
    four default headers beside the authentication headers. *)
Theorem params_keep_defaults method path body st l st' :
  getRequestParams E method path body st = (Return l, st') ->
  exists p,
    heap st' !! l = Some p /\
    field "url" p = Some (VStr ("https://api.coinbase.com" +:+ path)) /\
    field "json" p = Some (VBool true) /\
    header p "CB-VERSION" = VStr "2016-08-09" /\
    header p "Content-Type" = VStr "application/json" /\
    header p "Accept" = VStr "application/json" /\
    header p "Accept-Language" = VStr "en".
Proof.
  intros Hrun.
  destruct (getRequestParams_returns _ _ _ _ _ _ Hrun)
    as [(Hmode & -> & ->)|(secret & Hmode & Hsecret & Hrun')].
  - eexists. split; [apply lookup_fresh|]. repeat split.
  - rewrite (getRequestParams_api _ _ _ _ _ _ Hmode Hsecret) in Hrun'.
    cbn zeta in Hrun'. injection Hrun' as <- <-.
    eexists. split; [apply lookup_fresh|]. repeat split.
Qed.

(** X9: the [params] have a [body] field only when the body has own
    properties: a body left out, [null], the empty object or the empty
    array gives [params] with no [body] field at all; any other object is
    passed on as it is. *)
Theorem params_body_only_with_entries method path body st l st' :
  getRequestParams E method path body st = (Return l, st') ->
  exists p,
    heap st' !! l = Some p /\
    (nullish body = true \/ Object_entries body = [] -> field "body" p = None) /\
    (nullish body = false -> Object_entries body <> [] -> field "body" p = Some body).
Proof.
  intros Hrun.
  assert (Hnone : nullish body = true \/ Object_entries body = [] ->
            has_entries body = false).
  { unfold has_entries. intros [->| ->]; [done|]. by rewrite andb_false_r. }
  assert (Hsome : nullish body = false -> Object_entries body <> [] ->
            has_entries body = true).
  { unfold has_entries. intros -> Hne. destruct (Object_entries body); [done|].
    cbn [negb andb]. apply Z.ltb_lt. cbn [length]. lia. }
  destruct (getRequestParams_returns _ _ _ _ _ _ Hrun)
    as [(Hmode & -> & ->)|(secret & Hmode & Hsecret & Hrun')].
  - eexists. split; [apply lookup_fresh|]. unfold oauth_params. split.
    + intros H. by rewrite (Hnone H).
    + intros H1 H2. by rewrite (Hsome H1 H2).
  - rewrite (getRequestParams_api _ _ _ _ _ _ Hmode Hsecret) in Hrun'.
    cbn zeta in Hrun'. injection Hrun' as <- <-.
    eexists. split; [apply lookup_fresh|]. split.
    + intros H. by rewrite (Hnone H).
    + intros H1 H2. by rewrite (Hsome H1 H2).
Qed.

(** X10: in API key mode a body that is the empty object is signed but not
    sent: the signed text ends with the two braces of its JSON text, while
    the [params] handed to the transport have no [body] field. *)
Theorem empty_object_signed_not_sent method path st secret :
  isOAuth (this st) = false ->
  _apiSecret (this st) = VStr secret ->
  let timestamp := Date_now E (ticks st) / 1000 in
  exists l st' p,
    getRequestParams E method path (VObj []) st = (Return l, st') /\
    heap st' !! l = Some p /\
    field "body" p = None /\
    header p "CB-ACCESS-SIGN" =
      VStr (createHmac_sha256_hex E secret (pretty timestamp +:+ method +:+ path +:+ "{}")).
Proof.
  intros Hmode Hsecret timestamp.
  rewrite (getRequestParams_api _ _ _ _ _ _ Hmode Hsecret). cbn zeta.
  do 3 eexists. split; [reflexivity|]. split; [apply lookup_fresh|].
  split; reflexivity.
Qed.

(** X11: a request carries one kind of credentials.  A client with an access
    token sends it as bearer token, reads no clock and adds none of the
    [CB-ACCESS-*] headers, even when it was also given a key pair; a client
    without one signs and has no [auth] field. *)
Theorem one_auth_scheme_per_request method path body st l st' p :
  getRequestParams E method path body st = (Return l, st') ->
  heap st' !! l = Some p ->
  (isOAuth (this st) = true ->
     field "auth" p = Some (VObj [("bearer", _accessToken (this st))]) /\
     header p "CB-ACCESS-KEY" = VUndef /\
     header p "CB-ACCESS-SIGN" = VUndef /\
     header p "CB-ACCESS-TIMESTAMP" = VUndef /\
     ticks st' = ticks st) /\
  (isOAuth (this st) = false ->
     field "auth" p = None /\
     header p "CB-ACCESS-KEY" = _apiKey (this st) /\
     header p "CB-ACCESS-TIMESTAMP" = VNum (Date_now E (ticks st) / 1000) /\
     ticks st' = S (ticks st)).
Proof.
  intros Hrun Hp.
  destruct (getRequestParams_returns _ _ _ _ _ _ Hrun)
    as [(Hmode & -> & ->)|(secret & Hmode & Hsecret & Hrun')].
  - cbn [heap set_heap] in Hp. rewrite lookup_fresh in Hp. injection Hp as <-.
    split; [|congruence]. intros _. repeat split.
  - rewrite (getRequestParams_api _ _ _ _ _ _ Hmode Hsecret) in Hrun'.
    cbn zeta in Hrun'. injection Hrun' as <- <-.
    cbn [heap set_heap tick] in Hp. rewrite lookup_fresh in Hp. injection Hp as <-.
    split; [congruence|]. intros _. repeat split.
    by destruct (has_entries body).
Qed.

Lemma length_append (s1 s2 : string) :
  String.length (s1 +:+ s2) = (String.length s1 + String.length s2)%nat.
Proof.
  induction s1 as [|c s1 IH]; [done|].
  change (String c s1 +:+ s2) with (String c (s1 +:+ s2)).
  cbn [String.length]. by rewrite IH.
Qed.

Lemma append_inv_tail (s1 s2 t : string) : s1 +:+ t = s2 +:+ t -> s1 = s2.
Proof.
  revert s2. induction s1 as [|c s1 IH]; intros [|c' s2] H.
  - done.
  - apply (f_equal String.length) in H. rewrite !length_append in H. cbn in H. lia.
  - apply (f_equal String.length) in H. rewrite !length_append in H. cbn in H. lia.
  - change (String c (s1 +:+ t) = String c' (s2 +:+ t)) in H.
    injection H as -> H. by rewrite (IH _ H).
Qed.

(** X12: the signature has a resolution of one second.  Two calls of
    [getAPIAuthHeaders] with the same method, path and body by the same
    client give the same headers when the clock readings fall in the same
    second; when they fall in different seconds the texts that are signed
    differ. *)
Theorem signature_resolution path method body st1 st2 secret :
  this st1 = this st2 ->
  _apiSecret (this st1) = VStr secret ->
  let second1 := Date_now E (ticks st1) / 1000 in
  let second2 := Date_now E (ticks st2) / 1000 in
  (second1 = second2 ->
     fst (getAPIAuthHeaders E path method body st1) =
     fst (getAPIAuthHeaders E path method body st2)) /\
  (second1 <> second2 ->
     signed_message second1 method path body <> signed_message second2 method path body /\
     fst (getAPIAuthHeaders E path method body st1) <>
     fst (getAPIAuthHeaders E path method body st2)).
Proof.
  intros Hthis Hsecret second1 second2.
  unfold getAPIAuthHeaders. rewrite <- Hthis, Hsecret. cbn [fst].
  fold second1 second2. split; [by intros ->|].
  intros Hne. split.
  - intros Heq. apply Hne. unfold signed_message in Heq.
    set (rest := method +:+ path +:+ _) in Heq.
    apply append_inv_tail in Heq. by apply (inj pretty).
  - intros [= _ Heq]. done.
Qed.

(** *** Handlers *)

Lemma Map_get_set_eq {V} k (v : V) m : Map_get k (Map_set k v m) = Some v.
Proof.
  induction m as [|[k0 v0] m IH]; cbn.
  - by rewrite String.eqb_refl.
  - destruct (String.eqb k k0) eqn:Hk; cbn.
    + by rewrite String.eqb_refl.
    + by rewrite Hk.
Qed.

Lemma Map_get_set_ne {V} k k' (v : V) m :
  k <> k' -> Map_get k (Map_set k' v m) = Map_get k m.
Proof.
  intros Hne. induction m as [|[k0 v0] m IH]; cbn.
  - destruct (String.eqb_spec k k'); congruence.
  - destruct (String.eqb_spec k' k0) as [->|Hk0]; cbn.
    + destruct (String.eqb_spec k k0); congruence.
    + destruct (String.eqb_spec k k0); congruence.
Qed.

(** X13: [on] keeps one handler per event name, the last one registered:
    registering again replaces the earlier handler, so that only the new
    one runs on a refresh; handlers of other names and the credentials are
    left alone. *)
Theorem on_last_registration_wins eventName first second c arg :
  handler_outcome eventName (on eventName second (on eventName first c)) arg = second arg /\
  notifications eventName (on eventName second (on eventName first c)) arg =
    [Emitted eventName arg] /\
  (forall other,
     other <> eventName ->
     Map_get other (_events (on eventName second c)) = Map_get other (_events c)) /\
  isOAuth (on eventName second c) = isOAuth c /\
  _accessToken (on eventName second c) = _accessToken c /\
  _refreshToken (on eventName second c) = _refreshToken c.
Proof.
  unfold handler_outcome, notifications. cbn [_events on].
  rewrite Map_get_set_eq. repeat split.
  intros other Hne. by apply Map_get_set_ne.
Qed.

(** X14: the refresh request of an OAuth client is a POST to the token
    endpoint whose body carries the grant type, the client id and secret
    and the stored refresh token, and which still presents the stored
    access token as bearer token. *)
Theorem refresh_request_shape st :
  isOAuth (this st) = true ->
  exists later,
    trace (snd (refreshToken E st)) =
      trace st ++
        Sent request_post
          [("url", VStr "https://api.coinbase.com/oauth/token");
           ("json", VBool true);
           ("headers", default_headers);
           ("auth", VObj [("bearer", _accessToken (this st))]);
           ("body", VObj [("grant_type", VStr "refresh_token");
                          ("client_id", _clientId (this st));
                          ("client_secret", _clientSecret (this st));
                          ("refresh_token", _refreshToken (this st))])] :: later.
Proof.
  intros Hmode.
  destruct (refreshToken_shape st Hmode) as (r & st' & -> & _ & Hcases). cbn [snd].
  destruct Hcases as [(_ & -> & _)|(res & _ & _ & -> & _)]; by eexists.
Qed.

(** X15: a refresh that resolves with a falsy result changes nothing of the
    client and calls no handler; it resolves with that result. *)
Theorem refresh_falsy_changes_nothing st s b res :
  isOAuth (this st) = true ->
  respond E (trace st) request_post (refresh_params (this st)) =
    Answered {| statusCode := s; body := b |} ->
  s < 300 -> unwrap b = Some res -> truthy res = false ->
  exists st',
    refreshToken E st = (Return res, st') /\
    this st' = this st /\
    trace st' = trace st ++ [Sent request_post (refresh_params (this st))].
Proof.
  intros Hmode Hreply Hs Hres Hfalsy.
  rewrite refreshToken_oauth by done. cbn zeta.
  rewrite Hreply, (send_callback_ok _ _ _ _ Hs Hres), Hfalsy.
  eexists. repeat split.
Qed.

(** *** The money endpoints on the wire *)

Lemma money_request kind path params o st :
  match params with
  | Some l => heap st !! l = Some o
  | None => o = []
  end ->
  let body := VObj (set_field "type" (VStr kind) o) in
  let run := (b <- assign_params params [("type", VStr kind)] ;;
              httpPost E path b true) st in
  (exists evs,
     trace (snd run) = trace st ++ evs /\
     forall fn p, Sent fn p ∈ evs ->
       url_is token_url p = true \/
       (field "url" p = Some (VStr (COINBASE_API +:+ path)) /\
        field "body" p = Some body)) /\
  (isOAuth (this st) = true ->
   exists later,
     trace (snd run) =
       trace st ++ Sent request_post (oauth_params (this st) path body) :: later).
Proof.
  intros Hparams body run.
  assert (Hentries : has_entries body = true).
  { unfold body, has_entries. cbn [nullish negb andb Object_entries].
    apply Z.ltb_lt. destruct o as [|[k v] o]; cbn [set_field]; [cbn; lia|].
    destruct (String.eqb "type" k); cbn [length]; lia. }
  assert (Hbody : exists st1,
            assign_params params [("type", VStr kind)] st = (Return body, st1) /\
            this st1 = this st /\ trace st1 = trace st).
  { destruct params as [l|].
    - assert (Hlt : (l < length (heap st))%nat) by (eapply lookup_lt_Some; eauto).
      unfold assign_params. cbv [bind gets ret]. erewrite assign_run by done.
      rewrite merge_type. cbn [heap set_heap].
      rewrite list_lookup_insert_eq by done. cbn [from_option id].
      eexists. repeat split.
    - subst o. eexists. repeat split. }
  destruct Hbody as (st1 & Hassign & Hthis & Htrace).
  assert (Hrun : run = httpPost E path body true st1).
  { unfold run, bind at 1. by rewrite Hassign. }
  rewrite Hrun. clear Hrun run. unfold httpPost. split.
  - destruct (dispatch_effect E "POST" request_post path body true st1)
      as (r & st' & evs & -> & Htr & Hsent & _).
    exists evs. cbn [snd]. split; [by rewrite Htr, Htrace|].
    intros fn p Hin. apply Hsent in Hin as [Htok|[Hurl Hb]]; [by left|right].
    split; [done|]. by apply Hb.
  - intros Hmode. cbv [bind]. rewrite getRequestParams_oauth by (by rewrite Hthis).
    destruct (httpRequest_effect E request_post (length (heap st1)) true
                (set_heap (heap st1 ++ [oauth_params (this st1) path body]) st1)
                _ (lookup_fresh _ _))
      as (r & st' & evs & -> & Htr & _).
    exists evs. cbn [snd]. rewrite Htr. cbn [trace set_heap]. by rewrite Htrace, Hthis.
Qed.

(** X16: what [sendMoney], [transferMoney] and [requestMoney] put on the
    wire: every request they send to the transactions path of the account
    has as body the caller's properties with [type] set to the kind of the
    call, and just [type] when the caller passed no object; in OAuth mode
    that request is the first one sent. *)
Theorem money_endpoints_request_body accountId params o st :
  match params with
  | Some l => heap st !! l = Some o
  | None => o = []
  end ->
  let path := "/v2/accounts/" +:+ accountId +:+ "/transactions" in
  let sends (call : string -> option loc -> M value) (kind : string) : Prop :=
    let body := VObj (set_field "type" (VStr kind) o) in
    (exists evs,
       trace (snd (call accountId params st)) = trace st ++ evs /\
       forall fn p, Sent fn p ∈ evs ->
         url_is token_url p = true \/
         (field "url" p = Some (VStr (COINBASE_API +:+ path)) /\
          field "body" p = Some body)) /\
    (isOAuth (this st) = true ->
     exists later,
       trace (snd (call accountId params st)) =
         trace st ++ Sent request_post (oauth_params (this st) path body) :: later) in
  sends (sendMoney E) "send" /\
  sends (transferMoney E) "transfer" /\
  sends (requestMoney E) "request".
Proof.
  intros Hparams path sends. unfold sends, sendMoney, transferMoney, requestMoney.
  repeat split; by apply money_request.
Qed.

(** *** Searching a listing *)

Lemma first_with_found k wanted before item after v :
  Forall (no_match k wanted) before ->
  getProp item k = Some v -> strict_eq v wanted = true ->
  first_with k wanted (before ++ item :: after) = Return item.
Proof.
  intros Hbefore Hitem Heq. induction Hbefore as [|x before (vx & Hx & Hne) _ IH]; cbn.
  - by rewrite Hitem, Heq.
  - by rewrite Hx, Hne.
Qed.

Lemma first_with_none k wanted items :
  Forall (no_match k wanted) items -> first_with k wanted items = Return VUndef.
Proof.
  intros H. induction H as [|x items (vx & Hx & Hne) _ IH]; cbn; [done|].
  by rewrite Hx, Hne.
Qed.

(** X17: [findAccountByName] resolves with the first account of the listing
    whose [name] is strictly equal to the name asked for, with [undefined]
    when no account has it, and rejects when the listing cannot be
    iterated; it sends nothing beyond the listing request. *)
Theorem findAccountByName_first_match name st listing st1 :
  listAccounts E st = (Return listing, st1) ->
  (forall before account after v,
     listing = VArr (before ++ account :: after) ->
     Forall (no_match "name" name) before ->
     getProp account "name" = Some v -> strict_eq v name = true ->
     findAccountByName E name st = (Return account, st1)) /\
  (forall accounts,
     listing = VArr accounts ->
     Forall (no_match "name" name) accounts ->
     findAccountByName E name st = (Return VUndef, st1)) /\
  (for_of listing = None ->
     findAccountByName E name st = (Throw (TypeError "is not iterable"), st1)).
Proof.
  intros Hlist. unfold findAccountByName, bind. rewrite Hlist. unfold search.
  split; [|split].
  - intros before account after v -> Hbefore Hv Heq. cbn [for_of].
    by erewrite first_with_found.
  - intros accounts -> Hnone. cbn [for_of]. by rewrite first_with_none.
  - by intros ->.
Qed.

(** X18: [findOrCreateAccount] creates nothing when an account of that
    name is listed: it resolves with the listed account and sends no
    further request.  When no account has the name, it goes on exactly as
    [createAccount] with the body [{name: name}]. *)
Theorem findOrCreateAccount_creates_only_when_missing name st accounts st1 :
  listAccounts E st = (Return (VArr accounts), st1) ->
  name <> VUndef ->
  (forall before account after v,
     accounts = before ++ account :: after ->
     Forall (no_match "name" name) before ->
     getProp account "name" = Some v -> strict_eq v name = true ->
     findOrCreateAccount E name st = (Return account, st1)) /\
  (Forall (no_match "name" name) accounts ->
     findOrCreateAccount E name st = createAccount E (VObj [("name", name)]) st1).
Proof.
  intros Hlist Hname. unfold findOrCreateAccount, findAccountByName, bind.
  rewrite Hlist. unfold search. cbn [for_of]. split.
  - intros before account after v -> Hbefore Hv Heq.
    erewrite first_with_found by done.
    assert (Htruthy : truthy account = true).
    { destruct account; cbn in Hv; try discriminate; try reflexivity;
        injection Hv as <-; destruct name; try discriminate; congruence. }
    by rewrite Htruthy.
  - intros Hnone. by rewrite first_with_none.
Qed.

(** X19: [findTransaction] rejects before sending anything when it is
    called without [params]; with [params] it resolves with the first
    listed transaction whose [description] is strictly equal to theirs,
    and when [params] have no [description] that is the first transaction
    that has none. *)
Theorem findTransaction_by_description accountId params st :
  (nullish params = true ->
     findTransaction E accountId params st =
       (Throw (TypeError "Cannot destructure property"), st)) /\
  (forall description before item after v st1,
     getProp params "description" = Some description ->
     listTransactions E accountId st = (Return (VArr (before ++ item :: after)), st1) ->
     Forall (no_match "description" description) before ->
     getProp item "description" = Some v -> strict_eq v description = true ->
     findTransaction E accountId params st = (Return item, st1)) /\
  (forall o item after st1,
     params = VObj o -> field "description" o = None ->
     listTransactions E accountId st = (Return (VArr (item :: after)), st1) ->
     getProp item "description" = Some VUndef ->
     findTransaction E accountId params st = (Return item, st1)).
Proof.
  split; [|split].
  - by destruct params.
  - intros description before item after v st1 Hd Hlist Hbefore Hv Heq.
    unfold findTransaction. rewrite Hd. unfold bind. rewrite Hlist.
    unfold search. cbn [for_of]. by erewrite first_with_found.
  - intros o item after st1 -> Hd Hlist Hv.
    unfold findTransaction. cbn [getProp]. rewrite Hd. cbn [from_option].
    unfold bind. rewrite Hlist. unfold search. cbn [for_of first_with].
    by rewrite Hv.
Qed.

(** *** Answers without a body, refreshes without a token *)

(** X20: an answer that counts as a success but has no decoded body (a 204,
    or the JSON text [null]) makes the callback of [send] fail on
    [res.body.data]: the TypeError is raised inside the transport's
    callback, and the promise is neither resolved nor rejected. *)
Theorem empty_success_body_never_settles fn params refresh st p s b :
  heap st !! params = Some p ->
  respond E (trace st) fn p = Answered {| statusCode := s; body := b |} ->
  s < 300 ->
  nullish b = true ->
  httpRequest E fn params refresh st =
    (Uncaught (TypeError "Cannot read properties of undefined"), record (Sent fn p) st).
Proof.
  intros Hp Hreply Hs Hb.
  assert (Hcb : send_callback (this st) (respond E (trace st) fn p) =
            Uncaught (TypeError "Cannot read properties of undefined")).
  { rewrite Hreply. unfold send_callback. cbn [statusCode body].
    replace (s =? 401) with false by lia.
    replace (300 <=? s) with false by lia.
    rewrite andb_false_r. by destruct b. }
  rewrite (httpRequest_no_refresh _ _ _ _ _ Hp); rewrite Hcb; [done|].
  intros err; discriminate.
Qed.

(** X21: [refreshToken] does not look at the mode.  Called on a client in
    API key mode it sends a signed request to the token endpoint, and a
    successful answer that carries an access token turns the client into
    an OAuth client. *)
Theorem refresh_is_not_guarded_by_mode st secret s b res :
  isOAuth (this st) = false ->
  _apiSecret (this st) = VStr secret ->
  (forall p,
     url_is token_url p = true ->
     header p "CB-ACCESS-KEY" = _apiKey (this st) ->
     respond E (trace st) request_post p = Answered {| statusCode := s; body := b |}) ->
  s < 300 -> unwrap b = Some res -> truthy res = true ->
  nullish (prop res "access_token") = false ->
  isOAuth (this (snd (refreshToken E st))) = true /\
  _accessToken (this (snd (refreshToken E st))) = prop res "access_token".
Proof.
  intros Hmode Hsecret Hreply Hs Hres Htruthy Htoken.
  unfold refreshToken, refreshToken_with, httpPost_with.
  cbv [bind gets]. rewrite (getRequestParams_api _ _ _ _ _ _ Hmode Hsecret). cbn zeta.
  rewrite httpRequest_with_false.
  erewrite send_run by (cbn [heap set_heap tick]; apply lookup_fresh).
  cbn [this trace set_heap tick].
  rewrite Hreply by reflexivity.
  rewrite (send_callback_ok _ _ _ _ Hs Hres), Htruthy.
  cbv [modify]. rewrite emit_run. cbn [this set_this].
  assert (Hoauth : isOAuth (set_tokens (prop res "access_token")
                              (prop res "refresh_token") (this st)) = true).
  { unfold isOAuth. cbn [_accessToken set_tokens]. by rewrite Htoken. }
  by destruct (handler_outcome _ _ _).
Qed.

(** *** Every endpoint is bounded *)

Lemma dispatch_bounded method fn path body refresh st :
  String.eqb (COINBASE_API +:+ path) token_url = false ->
  bounded_run (params <- getRequestParams E method path body ;;
               httpRequest E fn params refresh) st.
Proof.
  intros Hurl.
  destruct (getRequestParams_effect E method path body st)
    as (r1 & st1 & o & Hrun1 & _ & Htrace1 & Hheap1 & Hr1).
  unfold bounded_run, bind. rewrite Hrun1.
  destruct r1 as [params|e|e]; [|clear Hr1|done].
  2: { exists []. cbn [snd]. rewrite Htrace1, app_nil_r. repeat split; cbn; lia. }
  destruct Hr1 as (-> & Hfield & _).
  assert (Hp : heap st1 !! length (heap st) = Some o)
    by (rewrite Hheap1; apply lookup_fresh).
  destruct (httpRequest_counts fn _ refresh st1 o Hp)
    as (evs & Htrace & Hsent & Hcalls & Hrefresh).
  exists evs. rewrite Htrace, Htrace1. repeat split; [done..| |done].
  apply Hrefresh. unfold is_refresh_call, url_is. rewrite Hfield, Hurl.
  by destruct fn.
Qed.

Lemma money_bounded kind path params st :
  String.eqb (COINBASE_API +:+ path) token_url = false ->
  bounded_run (body <- assign_params params [("type", VStr kind)] ;;
               httpPost E path body true) st.
Proof.
  intros Hurl.
  assert (Hassign : exists r st1,
            assign_params params [("type", VStr kind)] st = (r, st1) /\
            trace st1 = trace st).
  { destruct params as [l|]; [|by do 2 eexists].
    unfold assign_params, assign. cbv [bind gets ret].
    destruct (heap st !! l); by do 2 eexists. }
  destruct Hassign as (r & st1 & Hrun & Htrace).
  unfold bounded_run, bind at 1. rewrite Hrun.
  destruct r as [body|e|e].
  - destruct (dispatch_bounded "POST" request_post path body true st1 Hurl)
      as (evs & Hevs & Hbound).
    exists evs. unfold httpPost. by rewrite Hevs, Htrace.
  - exists []. cbn [snd]. rewrite Htrace, app_nil_r. repeat split; cbn; lia.
  - exists []. cbn [snd]. rewrite Htrace, app_nil_r. repeat split; cbn; lia.
Qed.

(** X22: every endpoint method that is one dispatch is bounded, whatever
    identifiers and parameters it is given and whatever the transport
    answers: at most three requests, at most one of them to the token
    endpoint, at most one call of the [didRefreshToken] handler.  No
    identifier can turn an endpoint path into the path of the token
    endpoint. *)
Theorem endpoints_bounded st userId accountId addressId transactionId params money :
  bounded_run (getCurrentUser E) st /\
  bounded_run (getUser E userId) st /\
  bounded_run (getUserAuth E) st /\
  bounded_run (updateCurrentUser E params) st /\
  bounded_run (listAccounts E) st /\
  bounded_run (getAccount E accountId) st /\
  bounded_run (createAccount E params) st /\
  bounded_run (setPrimaryAccount E accountId) st /\
  bounded_run (updateAccount E accountId params) st /\
  bounded_run (deleteAccount E accountId) st /\
  bounded_run (listAddresses E accountId) st /\
  bounded_run (showAddress E accountId addressId) st /\
  bounded_run (listAddressTransactions E accountId addressId) st /\
  bounded_run (createAddress E accountId params) st /\
  bounded_run (listTransactions E accountId) st /\
  bounded_run (getTransaction E accountId transactionId) st /\
  bounded_run (sendMoney E accountId money) st /\
  bounded_run (transferMoney E accountId money) st /\
  bounded_run (requestMoney E accountId money) st /\
  bounded_run (completeRequestMoney E accountId transactionId) st /\
  bounded_run (resendRequestMoney E accountId transactionId) st /\
  bounded_run (cancelRequestMoney E accountId transactionId) st /\
  bounded_run (revokeToken E) st.
Proof.
  repeat split;
    first [ by apply dispatch_bounded
          | by apply money_bounded
          | unfold revokeToken, httpPost; cbv [gets]; unfold bind at 1;
            by apply dispatch_bounded ].
Qed.

End More.

(** ** These properties on scripted runs *)

Lemma api_key_mode_single_request_witness :
  fst (httpRequest E_refresh request_get 0%nat true (with_user_request api_client)) =
    Throw (Error ("HTTP error 401 " +:+
                  default "undefined"
                    (JSON_stringify
                       (VObj [("errors", VArr [VObj [("id", VStr "expired_token")]])])))).
Proof.
  destruct (api_key_mode_single_request E_refresh request_get 0%nat true
              (with_user_request api_client)
              (oauth_params api_client "/v2/user" VUndef) eq_refl eq_refl)
    as [_ H401].
  exact (H401 _ eq_refl).
Defined.

Lemma transport_error_is_terminal_witness :
  httpRequest E_silent request_get 0%nat true (with_user_request oauth_client) =
    (Throw (External "no reply left"),
     record (Sent request_get (oauth_params oauth_client "/v2/user" VUndef))
       (with_user_request oauth_client)).
Proof.
  exact (transport_error_is_terminal E_silent request_get 0%nat true
           (with_user_request oauth_client)
           (oauth_params oauth_client "/v2/user" VUndef)
           "no reply left" eq_refl eq_refl).
Defined.

Lemma http_error_is_terminal_witness :
  fst (httpRequest E_server_error request_get 0%nat true (with_user_request oauth_client)) =
    Throw (Error ("HTTP error 500 " +:+
                  default "undefined"
                    (JSON_stringify
                       (VObj [("errors", VArr [VObj [("id", VStr "internal")]])])))).
Proof.
  rewrite (http_error_is_terminal E_server_error request_get 0%nat true
             (with_user_request oauth_client)
             (oauth_params oauth_client "/v2/user" VUndef)
             500 (VObj [("errors", VArr [VObj [("id", VStr "internal")]])]));
    [reflexivity | reflexivity | reflexivity | lia | right; lia].
Defined.

Lemma refresh_failure_propagates_witness :
  fst (httpRequest E_refresh_refused request_get 0%nat true
         (with_user_request oauth_client)) =
    Throw (Error ("HTTP error 400 " +:+
                  default "undefined"
                    (JSON_stringify (VObj [("error", VStr "invalid_grant")])))) /\
  this (snd (httpRequest E_refresh_refused request_get 0%nat true
               (with_user_request oauth_client))) = oauth_client.
Proof.
  destruct (refresh_failure_propagates E_refresh_refused request_get 0%nat
              (with_user_request oauth_client)
              (oauth_params oauth_client "/v2/user" VUndef)
              (VObj [("errors", VArr [VObj [("id", VStr "expired_token")]])])
              eq_refl eq_refl eq_refl)
    as (Hthis & _ & _ & Hstatus).
  rewrite (Hstatus 400 (VObj [("error", VStr "invalid_grant")]) eq_refl) by lia.
  split; [reflexivity|exact Hthis].
Defined.

Lemma retry_is_rebuilt_request_witness :
  exists st'',
    (headers <- gets (fun st => getOAuthHeaders (this st)) ;;
     assign 0%nat [headers]) (with_user_request_as (refreshed new_tokens oauth_client)) =
      (Return 0%nat, st'') /\
    heap st'' !! 0%nat =
      Some (oauth_params (refreshed new_tokens oauth_client) "/v2/user" VUndef).
Proof.
  destruct (retry_is_rebuilt_request E_refresh "GET" "/v2/user" VUndef oauth_client 0%nat
              (with_user_request_as (refreshed new_tokens oauth_client))
              eq_refl eq_refl) as ((st'' & Hrun & _ & Hcell) & _).
  exists st''. split; [exact Hrun|exact Hcell].
Defined.

Lemma request_bound_witness :
  exists evs,
    trace (snd (httpRequest E_refresh request_get 0%nat true st_listening)) = evs /\
    requests_sent evs = 3%nat /\
    (refresh_calls evs <= 1)%nat.
Proof.
  destruct (request_bound E_refresh request_get 0%nat true st_listening
              (oauth_params (this st_listening) "/v2/user" VUndef) eq_refl)
    as (evs & Htrace & _ & _ & Hrefresh).
  exists evs. split; [exact Htrace|]. split; [|exact (Hrefresh eq_refl)].
  cbn [trace st_listening with_user_request app] in Htrace. rewrite <- Htrace.
  reflexivity.
Defined.

Lemma request_changes_only_tokens_witness :
  let c' := this (snd (httpRequest E_refresh request_get 0%nat true st_listening)) in
  _clientId c' = VStr "id" /\ _clientSecret c' = VStr "secret" /\
  _accessToken c' = VStr "new" /\ _refreshToken c' = VStr "r2" /\
  exists s b res,
    respond E_refresh
      [Sent request_get (oauth_params (this st_listening) "/v2/user" VUndef)]
      request_post (refresh_params (this st_listening)) =
      Answered {| statusCode := s; body := b |} /\
    unwrap b = Some res /\
    _accessToken c' = prop res "access_token" /\
    _refreshToken c' = prop res "refresh_token".
Proof.
  intros c'.
  destruct (request_changes_only_tokens E_refresh request_get 0%nat true st_listening
              (oauth_params (this st_listening) "/v2/user" VUndef) eq_refl)
    as (_ & _ & Hid & Hsecret & _ & Htokens).
  split; [exact Hid|]. split; [exact Hsecret|].
  split; [reflexivity|]. split; [reflexivity|].
  destruct Htokens as [[Hsame _]|(b1 & s & b & res & _ & _ & _ & H2 & _ & Hres & _ & Ha & Hr)].
  - discriminate Hsame.
  - exists s, b, res. split; [exact H2|]. split; [exact Hres|].
    split; [exact Ha|exact Hr].
Defined.

Lemma params_keep_defaults_witness :
  exists p,
    heap (snd (getRequestParams E_refresh "GET" "/v2/user" VUndef (idle api_client)))
      !! 0%nat = Some p /\
    field "url" p = Some (VStr "https://api.coinbase.com/v2/user") /\
    header p "CB-VERSION" = VStr "2016-08-09".
Proof.
  destruct (params_keep_defaults E_refresh "GET" "/v2/user" VUndef (idle api_client)
              0%nat
              (snd (getRequestParams E_refresh "GET" "/v2/user" VUndef (idle api_client)))
              eq_refl)
    as (p & Hp & Hurl & _ & Hversion & _).
  exists p. repeat split; assumption.
Defined.

Lemma params_body_only_with_entries_witness :
  exists p,
    heap (snd (getRequestParams E_refresh "POST" "/v2/accounts" (VObj [])
                 (idle oauth_client))) !! 0%nat = Some p /\
    field "body" p = None.
Proof.
  destruct (params_body_only_with_entries E_refresh "POST" "/v2/accounts" (VObj [])
              (idle oauth_client) 0%nat
              (snd (getRequestParams E_refresh "POST" "/v2/accounts" (VObj [])
                      (idle oauth_client)))
              eq_refl)
    as (p & Hp & Hnone & _).
  exists p. split; [exact Hp|]. apply Hnone. by right.
Defined.

Lemma empty_object_signed_not_sent_witness :
  exists l st' p,
    getRequestParams E_refresh "POST" "/v2/accounts" (VObj []) (idle api_client) =
      (Return l, st') /\
    heap st' !! l = Some p /\
    field "body" p = None /\
    header p "CB-ACCESS-SIGN" = VStr "hmac(secret,1700000000POST/v2/accounts{})".
Proof.
  exact (empty_object_signed_not_sent E_refresh "POST" "/v2/accounts" (idle api_client)
           "secret" eq_refl eq_refl).
Defined.

Lemma one_auth_scheme_per_request_witness :
  exists p,
    heap (snd (getRequestParams E_refresh "GET" "/v2/user" VUndef (idle both_client)))
      !! 0%nat = Some p /\
    field "auth" p = Some (VObj [("bearer", VStr "old")]) /\
    header p "CB-ACCESS-SIGN" = VUndef.
Proof.
  eexists. split; [reflexivity|].
  destruct (one_auth_scheme_per_request E_refresh "GET" "/v2/user" VUndef
              (idle both_client) 0%nat
              (snd (getRequestParams E_refresh "GET" "/v2/user" VUndef (idle both_client)))
              _ eq_refl eq_refl)
    as [Hoauth _].
  destruct (Hoauth eq_refl) as (Hauth & _ & Hsign & _).
  split; [exact Hauth|exact Hsign].
Defined.

Lemma signature_resolution_witness :
  fst (getAPIAuthHeaders E_ticking "/v2/user" "GET" VUndef (at_tick 0 api_client)) =
  fst (getAPIAuthHeaders E_ticking "/v2/user" "GET" VUndef (at_tick 1 api_client)) /\
  fst (getAPIAuthHeaders E_ticking "/v2/user" "GET" VUndef (at_tick 1 api_client)) <>
  fst (getAPIAuthHeaders E_ticking "/v2/user" "GET" VUndef (at_tick 2 api_client)).
Proof.
  split.
  - destruct (signature_resolution E_ticking "/v2/user" "GET" VUndef
                (at_tick 0 api_client) (at_tick 1 api_client) "secret" eq_refl eq_refl)
      as [Hsame _].
    exact (Hsame eq_refl).
  - destruct (signature_resolution E_ticking "/v2/user" "GET" VUndef
                (at_tick 1 api_client) (at_tick 2 api_client) "secret" eq_refl eq_refl)
      as [_ Hdiffer].
    apply Hdiffer. discriminate.
Defined.

Lemma refresh_request_shape_witness :
  exists later,
    trace (snd (refreshToken E_refresh_refused (idle oauth_client))) =
      Sent request_post
        [("url", VStr "https://api.coinbase.com/oauth/token");
         ("json", VBool true);
         ("headers", default_headers);
         ("auth", VObj [("bearer", VStr "old")]);
         ("body", VObj [("grant_type", VStr "refresh_token");
                        ("client_id", VStr "id");
                        ("client_secret", VStr "secret");
                        ("refresh_token", VStr "r1")])] :: later.
Proof.
  exact (refresh_request_shape E_refresh_refused (idle oauth_client) eq_refl).
Defined.

Lemma refresh_falsy_changes_nothing_witness :
  exists st',
    refreshToken (scripted [answer 200 (VBool false)]) (idle oauth_client) =
      (Return (VBool false), st') /\
    this st' = oauth_client /\
    trace st' = [Sent request_post (refresh_params oauth_client)].
Proof.
  apply (refresh_falsy_changes_nothing (scripted [answer 200 (VBool false)])
           (idle oauth_client) 200 (VBool false) (VBool false));
    reflexivity.
Defined.

Lemma money_endpoints_request_body_witness :
  exists later,
    trace (snd (sendMoney E_refresh "primary" (Some 0%nat)
                  (with_caller_object oauth_client
                     [("to", VStr "bob"); ("amount", VNum 5)]))) =
      Sent request_post
        (oauth_params oauth_client "/v2/accounts/primary/transactions"
           (VObj [("to", VStr "bob"); ("amount", VNum 5); ("type", VStr "send")]))
        :: later.
Proof.
  destruct (money_endpoints_request_body E_refresh "primary" (Some 0%nat)
              [("to", VStr "bob"); ("amount", VNum 5)]
              (with_caller_object oauth_client [("to", VStr "bob"); ("amount", VNum 5)])
              eq_refl)
    as ((_ & Hfirst) & _).
  exact (Hfirst eq_refl).
Defined.

Lemma findAccountByName_first_match_witness :
  fst (findAccountByName E_accounts (VStr "savings") (idle oauth_client)) =
    Return (wallet "savings").
Proof.
  destruct (findAccountByName_first_match E_accounts (VStr "savings") (idle oauth_client)
              (VArr [wallet "main"; wallet "savings"; wallet "savings"])
              (snd (listAccounts E_accounts (idle oauth_client))) eq_refl)
    as (Hfound & _).
  rewrite (Hfound [wallet "main"] (wallet "savings") [wallet "savings"] (VStr "savings")
             eq_refl); try reflexivity.
  constructor; [|constructor]. exists (VStr "main"). split; reflexivity.
Defined.

Lemma findOrCreateAccount_creates_only_when_missing_witness :
  findOrCreateAccount E_accounts (VStr "savings") (idle oauth_client) =
    (Return (wallet "savings"), snd (listAccounts E_accounts (idle oauth_client))) /\
  requests_sent
    (trace (snd (findOrCreateAccount E_accounts (VStr "savings") (idle oauth_client))))
    = 1%nat.
Proof.
  destruct (findOrCreateAccount_creates_only_when_missing E_accounts (VStr "savings")
              (idle oauth_client)
              [wallet "main"; wallet "savings"; wallet "savings"]
              (snd (listAccounts E_accounts (idle oauth_client))) eq_refl)
    as (Hfound & _); [discriminate|].
  assert (Hrun := Hfound [wallet "main"] (wallet "savings") [wallet "savings"]
                    (VStr "savings") eq_refl).
  rewrite Hrun; try reflexivity.
  - split; reflexivity.
  - constructor; [|constructor]. exists (VStr "main"). split; reflexivity.
Defined.

Lemma findTransaction_by_description_witness :
  fst (findTransaction E_transactions "primary" (VObj [("description", VStr "lunch")])
         (idle oauth_client)) =
    Return (VObj [("id", VStr "t3"); ("description", VStr "lunch")]) /\
  findTransaction E_transactions "primary" VUndef (idle oauth_client) =
    (Throw (TypeError "Cannot destructure property"), idle oauth_client).
Proof.
  split.
  - destruct (findTransaction_by_description E_transactions "primary"
                (VObj [("description", VStr "lunch")]) (idle oauth_client))
      as (_ & Hfound & _).
    rewrite (Hfound (VStr "lunch")
               [VObj [("id", VStr "t1"); ("description", VStr "rent")];
                VObj [("id", VStr "t2")]]
               (VObj [("id", VStr "t3"); ("description", VStr "lunch")]) []
               (VStr "lunch")
               (snd (listTransactions E_transactions "primary" (idle oauth_client))));
      try reflexivity.
    constructor; [|constructor; [|constructor]].
    + exists (VStr "rent"). split; reflexivity.
    + exists VUndef. split; reflexivity.
  - destruct (findTransaction_by_description E_transactions "primary" VUndef
                (idle oauth_client)) as (Hmissing & _).
    exact (Hmissing eq_refl).
Defined.

Lemma empty_success_body_never_settles_witness :
  fst (httpRequest E_no_content request_delete 0%nat true
         (with_user_request oauth_client)) =
    Uncaught (TypeError "Cannot read properties of undefined").
Proof.
  rewrite (empty_success_body_never_settles E_no_content request_delete 0%nat true
             (with_user_request oauth_client)
             (oauth_params oauth_client "/v2/user" VUndef) 204 VUndef);
    reflexivity.
Defined.

Lemma refresh_is_not_guarded_by_mode_witness :
  isOAuth api_client = false /\
  isOAuth (this (snd (refreshToken E_routed (idle api_client)))) = true.
Proof.
  split; [reflexivity|].
  refine (proj1 (refresh_is_not_guarded_by_mode E_routed (idle api_client) "secret"
                   200 new_tokens new_tokens eq_refl eq_refl _ eq_refl eq_refl eq_refl
                   eq_refl)).
  intros p Hurl _. unfold E_routed. cbn [respond]. by rewrite Hurl.
Defined.
